(* ===== verification/_CoqProject ===== *)
-Q . S2P
Prelude.v
JsString.v
Content.v
Timers.v
Runtime.v
Slider.v
ContactForm.v
EventLoop.v
App.v
Presence.v
Motion.v
CardStack.v
Scroll.v
Navbar.v
Dom.v
Page.v
