(* ===== verification/Prelude.v ===== *)
(** * ArtDulce landing page: a verification development of [src/src/App.tsx]

    The program is one React component [App] (lines 164-401) with two
    helpers, [Navbar] (66-89) and [Card] (91-147), and three constant
    collections.  What it does beyond static markup:
    - the history slider (171-176): a [useEffect] on mount creates a
      5000 ms [setInterval] whose callback performs
      [setCurrentSlide(prev => (prev + 1) % historySlides.length)]; the
      effect's cleanup clears it on unmount;
    - the contact form (178-185, 360-379): [handleFormSubmit] sets
      ['submitting'] and schedules a 1500 ms timeout that sets ['success']
      and schedules a 4000 ms timeout that sets ['idle']; the form shows a
      disabled button while submitting and is replaced by a success panel;
    - the stacking cards (91-147, 291-294): card [i] of [n] gets the target
      scale [1 - (n - i) * 0.05] and the scroll range [[i * 0.25, 1]], and
      framer-motion maps the page's scroll progress through that range onto
      [[1, targetScale]]; each card also has a once-only entrance and a
      vertical bob that the entrance's [y: 0] overrides for good;
    - the navbar anchors (75), [item.toLowerCase().normalize("NFD")]
      with the combining marks removed, linking to the sections' ids.
    The slider and the form interact only through the browser: their
    callbacks share one timer table and one event loop, and both write the
    component's state through React's setters.

    Files, in dependency order (the Module or Section and the code each
    models):
    - [Prelude]     this header, the [dulce_scope] notation [l.[i]] for
                    JavaScript indexing, the tactics [inv] and
                    [bool_facts], the hint databases [dulce]/[dulce_rw], and
                    the list and modular-arithmetic lemmas shared below;
    - [JsString]    strings as lists of UTF-16 code units, [split] and
                    [join] with their round trip;
    - [Content]     Modules [Feature], [Slide], [Favorite]: the records
                    and the constants [features], [historySlides],
                    [favorites] (lines 8-62, 306-310);
    - [Timers]      Section [Queue]: the host's timer table
                    ([setTimeout], [setInterval], [clearInterval], ids from
                    one counter starting at 1, earliest due first and ties
                    by id, intervals rescheduled at due + period), generic
                    in the callback type, with its invariant [wf];
    - [Runtime]     the [World]: the two [useState] cells (167-168), the
                    mount flag, the captured interval handle and the timer
                    table; React setters that do nothing after unmount;
    - [Slider]      the effect, its tick and cleanup, and what the slider
                    renders (indicators, the title split in two lines);
    - [ContactForm] [handleFormSubmit], its two callbacks, the rendered
                    panel and the DOM's gating of submissions;
    - [EventLoop]   the event loop ([fire], [run_until], [wait]) running
                    the page's timer callbacks, its termination measure,
                    and its loop-invariant principle;
    - [App]         mount, unmount, user events ([dispatch], [page]); the
                    abstract [Timeline] (slide = floor((t - t0) / 5000)
                    mod 3, form status by the windows [[s, s+1500)]
                    submitting and [[s+1500, s+5500)] success), the
                    invariant of the mounted page and the refinement of the
                    page by the timeline; liveness; teardown;
    - [Presence]    framer-motion's [AnimatePresence mode="wait"] (library
                    code, from its documentation) as a machine over
                    re-renders and elapsed time, with its labelled step
                    relation, composed with the slider: the child's [key]
                    at each tick is the page's [currentSlide] then;
    - [Motion]      framer-motion's [clamp], [progress], [mix],
                    [interpolate] and scroll progress (library code, from
                    its documentation), with [Proper] instances for [Qeq];
    - [CardStack]   target scales, ranges, card scale, image offset, the
                    entrance state machine, and which animation drives
                    the card's [y] (framer-motion's priority of
                    [whileInView] over [animate]);
    - [Scroll]      [useScroll]'s offsets (lines 93, 166) resolved against
                    the layout, and the card scale as a function of the
                    window's scroll position;
    - [Navbar]      the slug of the navbar items;
    - [Dom]         React elements as a tree (host, composite and text
                    nodes, keys apart from props) and its traversals;
    - [Page]        the JSX of every component and section as element
                    trees ([form_column] built on [ContactForm]'s panel),
                    and [render_app], [App]'s render, which throws when
                    the slide index is out of range.

    Theorems (C1-C29 of the manifest): the page refines the timeline after
    any sequence of submissions and waits (C1) with the slider and form
    timings as corollaries (C2, C3); at most one form timer and no
    overlapping submissions (C4); the slide index always denotes a slide
    (C5); unmounting stops the slider for good while the form's timeouts
    stay pending (C6, C7); the event loop terminates (C8); the form always
    returns to idle and every slide recurs (C9, C10); the submit gating
    (C11, C29); each task moves the form status one place at most along
    its cycle (C12); the render's one error path, unique React keys and
    links that resolve to ids (C13-C15); the slider shows the slide of
    [d] ms ago (C16); scrolling down never enlarges a card and the
    container's progress is clamped with the right ends (C17, C18); the
    card scale bounds, monotonicity, ends and the degenerate cases of
    many cards (C19-C24); the entrance fires once (C25) and the bob stops
    once the card is in view (C26); the slider's indicators and heading
    (C27, C28).
    Invariants are proved once for each operation and carried over traces
    by induction on the event list; the event loop is reasoned about with
    the principle [run_until_inv] of Section [LoopInvariant].

    Fuel: [run_until] takes fuel because the loop's termination is not
    structural.  [wait limit w] gives it [budget limit w], one plus the sum
    over pending timers of the firings each can still make before [limit]
    (one for a timeout, [(limit - due) / period + 1] for an interval),
    weighted by 2 for the 1500 ms callback, which schedules one more
    timeout.  Every firing lowers the sum by at least one ([budget_fire]),
    so this fuel is always enough ([run_until_enough], C8): [wait] never
    falls back on its out-of-fuel branch for a well-formed table.

    Numbers: times are [N] milliseconds (browser clocks do not wrap in
    practice); the scroll arithmetic uses exact rationals [Q] instead of
    doubles.  Strings are UTF-16 code units; [toLowerCase] and NFD are
    modelled on Latin-1, which holds every character the page passes them.

    Not modelled: static class names and inline styles without logic
    (the page tree keeps ids, links, keys, form attributes, texts, image
    sources, the cards' computed styles and the indicator classes); the
    animation curves of entering and exiting children, the springs and
    the easing (which child is in the DOM is modelled, the bob holds for
    any easing into [[0, 1]]); React's reconciliation and commit, which
    are the library's internals rather than operations of the page;
    StrictMode's double effects, since the sources under [src/] have no
    entry point that enables it; the DOM's layout (the viewport height
    and the elements' positions are inputs of [Scroll]); the form
    fields' values and HTML validation (an input flag); doubles (exact
    rationals). *)

From Stdlib Require Import Arith Lia List NArith Bool.
Import ListNotations.

(** ** Notation

    [l .[ i ]] is JavaScript's array indexing [l[i]], which is [undefined]
    out of range: [None] here. *)

Declare Scope dulce_scope.
Delimit Scope dulce_scope with dulce.
Notation "l .[ i ]" := (nth_error l i) (at level 1, left associativity,
  format "l .[ i ]") : dulce_scope.
Open Scope dulce_scope.

(** ** Tactics *)

(** [inv H]: invert a hypothesis and clean up. *)
Ltac inv H := inversion H; subst; clear H.

(** [bool_facts]: turn the boolean comparisons of the hypotheses into
    propositions, so that [lia] sees them. *)
Ltac bool_facts :=
  repeat match goal with
  | H : (_ =? _)%N = true |- _ => apply N.eqb_eq in H
  | H : (_ =? _)%N = false |- _ => apply N.eqb_neq in H
  | H : (_ <=? _)%N = true |- _ => apply N.leb_le in H
  | H : (_ <=? _)%N = false |- _ => apply N.leb_gt in H
  | H : (_ <? _)%N = true |- _ => apply N.ltb_lt in H
  | H : (_ <? _)%N = false |- _ => apply N.ltb_ge in H
  | H : (_ =? _)%nat = true |- _ => apply Nat.eqb_eq in H
  | H : (_ =? _)%nat = false |- _ => apply Nat.eqb_neq in H
  | H : (_ && _)%bool = true |- _ => apply andb_true_iff in H as [? ?]
  | H : (_ || _)%bool = true |- _ => apply orb_true_iff in H as [? | ?]
  | H : (_ || _)%bool = false |- _ => apply orb_false_iff in H as [? ?]
  | H : negb _ = true |- _ => apply negb_true_iff in H
  | H : negb _ = false |- _ => apply negb_false_iff in H
  end.

Create HintDb dulce.
Create Rewrite HintDb dulce_rw.

(** ** Shared lemmas *)

(** Advancing an index modulo [n] does not depend on whether the previous
    value was already reduced. *)
Lemma mod_succ_idemp (n a : nat) : (a mod n + 1) mod n = (a + 1) mod n.
Proof. apply Nat.Div0.add_mod_idemp_l. Qed.

(** Iterating [p => (p + 1) mod n] [k] times from [x] lands on
    [(x + k) mod n]. *)
Lemma iter_succ_mod (n k x : nat) :
  Nat.iter k (fun p => (p + 1) mod n) (x mod n) = (x + k) mod n.
Proof.
  induction k as [|k IH]; simpl.
  - now rewrite Nat.add_0_r.
  - rewrite IH, mod_succ_idemp. f_equal. lia.
Qed.

(** No index of a range that does not contain [c] equals [c]. *)
Lemma filter_eqb_none (c : nat) (l : list nat) :
  (forall i, In i l -> i <> c) -> filter (fun i => i =? c) l = [].
Proof.
  induction l as [|j l IH]; intros Hall; simpl; [reflexivity |].
  destruct (Nat.eqb_spec j c) as [->|]; [exfalso; apply (Hall c); [now left | reflexivity] |].
  apply IH. intros i Hi. apply Hall. now right.
Qed.

(** Among [s .. s+n-1] exactly one index equals [c] when [c] is in range. *)
Lemma count_eqb_seq (c s n : nat) :
  s <= c < s + n ->
  length (filter (fun i => i =? c) (seq s n)) = 1.
Proof.
  revert s. induction n as [|n IH]; intros s Hc; [lia |].
  simpl. destruct (Nat.eqb_spec s c) as [->|Hne]; simpl.
  - rewrite filter_eqb_none; [reflexivity |].
    intros i Hi. apply in_seq in Hi. lia.
  - apply IH. lia.
Qed.

(** A list index below the length denotes an element. *)
Lemma nth_error_lt_Some {A} (l : list A) (i : nat) :
  i < length l -> exists x, l.[i] = Some x.
Proof.
  intros Hi. destruct (nth_error l i) as [x|] eqn:E; [eauto |].
  apply nth_error_None in E. lia.
Qed.

#[export] Hint Resolve nth_error_lt_Some : dulce.

(** Removing elements keeps the keys of a list distinct. *)
Lemma NoDup_map_filter {A B} (f : A -> B) (p : A -> bool) (l : list A) :
  NoDup (map f l) -> NoDup (map f (filter p l)).
Proof.
  induction l as [|x l IH]; intros H; simpl; [constructor |].
  inv H. destruct (p x); simpl; [| auto].
  constructor; [| auto].
  intros Hin. apply in_map_iff in Hin as (y & Hy & Hin).
  apply filter_In in Hin as [Hin _]. apply H2. rewrite <- Hy. now apply in_map.
Qed.

(** Appending an element with a fresh key keeps the keys distinct. *)
Lemma NoDup_map_snoc {A B} (f : A -> B) (l : list A) (x : A) :
  NoDup (map f l) -> ~ In (f x) (map f l) -> NoDup (map f (l ++ [x])).
Proof.
  intros H Hx. rewrite map_app. apply NoDup_app; [exact H | repeat constructor; easy |].
  intros y Hy [<-|[]]. contradiction.
Qed.

(** Filtering by two predicates commutes. *)
Lemma filter_filter_comm {A} (p q : A -> bool) (l : list A) :
  filter p (filter q l) = filter q (filter p l).
Proof.
  induction l as [|x l IH]; simpl; [reflexivity |].
  destruct (q x) eqn:Hq, (p x) eqn:Hp; simpl; rewrite ?Hq, ?Hp, IH; reflexivity.
Qed.

(** A filter that keeps every element is the identity. *)
Lemma filter_all {A} (p : A -> bool) (l : list A) :
  (forall x, In x l -> p x = true) -> filter p l = l.
Proof.
  induction l as [|x l IH]; intros H; simpl; [reflexivity |].
  rewrite (H x (or_introl eq_refl)), IH; [reflexivity |].
  intros y Hy. apply H. now right.
Qed.

(** Two elements of a list with distinct keys and the same key are equal. *)
Lemma NoDup_map_key {A B} (key : A -> B) (l : list A) (x y : A) :
  NoDup (map key l) -> In x l -> In y l -> key x = key y -> x = y.
Proof.
  induction l as [|z l IH]; intros Hnd Hx Hy Hk; [easy |]. inv Hnd.
  destruct Hx as [<-|Hx], Hy as [<-|Hy]; auto.
  - exfalso. apply H1. rewrite Hk. now apply in_map.
  - exfalso. apply H1. rewrite <- Hk. now apply in_map.
Qed.

(** Summing over a list with distinct keys: one element plus the others. *)
Lemma sum_remove_key {A} (key : A -> N) (f : A -> nat) (l : list A) (x : A) :
  NoDup (map key l) -> In x l ->
  list_sum (map f l) =
  f x + list_sum (map f (filter (fun u => negb (key u =? key x)%N) l)).
Proof.
  intros Hnd Hx.
  induction l as [|y l IH]; [easy |]. simpl in Hnd |- *. inv Hnd.
  destruct Hx as [<-|Hx].
  - rewrite N.eqb_refl. simpl. rewrite filter_all; [reflexivity |].
    intros u Hu. apply negb_true_iff, N.eqb_neq. intros Heq.
    apply H1. rewrite <- Heq. now apply in_map.
  - assert (Hne : key y <> key x).
    { intros Heq. apply H1. rewrite Heq. now apply in_map. }
    apply N.eqb_neq in Hne. rewrite Hne. simpl. rewrite IH by assumption. lia.
Qed.
