(* ===== verification/JsString.v ===== *)
(** * JavaScript strings

    A JavaScript string is a sequence of UTF-16 code units; [jsstr] is a
    list of them, as [N].  The source file is UTF-8, so its literals are
    written here as Rocq strings (bytes) and decoded by [utf16]; the
    literals of [App.tsx] all lie in the Basic Multilingual Plane, where a
    code point is one code unit.

    The string operations the page uses on its data are modelled from
    ECMAScript's definitions: [String.prototype.split] with a one-unit
    separator ([split_on]) and [Array.prototype.join] ([join]).  The main
    lemma is the round trip [join sep (split_on sep s) = s]. *)

From Stdlib Require Import List NArith Lia Bool String Ascii.
From S2P Require Import Prelude.
Import ListNotations.

Local Open Scope N_scope.

Definition jsstr := list N.

(** UTF-8 bytes of a literal to UTF-16 code units (one-, two- and
    three-byte sequences; a truncated sequence ends the string). *)
Fixpoint utf16 (s : string) : jsstr :=
  match s with
  | EmptyString => []
  | String a r =>
      let b := N_of_ascii a in
      if b <? 128 then b :: utf16 r
      else match r with
           | EmptyString => []
           | String a2 r2 =>
               let b2 := N_of_ascii a2 - 128 in
               if b <? 224 then ((b - 192) * 64 + b2) :: utf16 r2
               else match r2 with
                    | EmptyString => []
                    | String a3 r3 =>
                        ((b - 224) * 4096 + b2 * 64 + (N_of_ascii a3 - 128))
                          :: utf16 r3
                    end
           end
  end.

Definition space : N := 32.

(** [s.split(sep)] for a separator of one code unit: the pieces between
    the occurrences of [sep]; [n] occurrences give [n + 1] pieces. *)
Fixpoint split_on (sep : N) (s : jsstr) : list jsstr :=
  match s with
  | [] => [[]]
  | c :: r =>
      let parts := split_on sep r in
      if c =? sep then [] :: parts
      else match parts with
           | p :: ps => (c :: p) :: ps
           | [] => [[c]]
           end
  end.

(** [parts.join(sep)]: the pieces with [sep] between consecutive ones. *)
Fixpoint join (sep : N) (parts : list jsstr) : jsstr :=
  match parts with
  | [] => []
  | [p] => p
  | p :: ps => p ++ sep :: join sep ps
  end.

(** ** Split and join *)

(** [split] never returns an empty array, so [s.split(sep)[0]] is
    always defined. *)
(** Equality of strings ([===] on strings), decided unit by unit. *)
Definition jsstr_eqb (a b : jsstr) : bool :=
  if list_eq_dec N.eq_dec a b then true else false.

Lemma split_on_cons (sep : N) (s : jsstr) :
  exists p ps, split_on sep s = p :: ps.
Proof.
  induction s as [|c r IH]; simpl; [eauto |].
  destruct IH as (p & ps & ->). destruct (c =? sep); eauto.
Qed.

(** No piece contains the separator. *)
Lemma split_on_no_sep (sep : N) (s : jsstr) :
  Forall (fun p => ~ In sep p) (split_on sep s).
Proof.
  induction s as [|c r IH]; simpl; [repeat constructor; easy |].
  destruct (c =? sep) eqn:E; [constructor; [easy | exact IH] |].
  destruct (split_on_cons sep r) as (p & ps & Hs). rewrite Hs in *.
  inv IH. constructor; [| assumption].
  intros [->|Hin]; [rewrite N.eqb_refl in E; discriminate | contradiction].
Qed.

Lemma join_cons (sep : N) (p : jsstr) (ps : list jsstr) :
  ps <> [] -> join sep (p :: ps) = p ++ sep :: join sep ps.
Proof. destruct ps; [contradiction | reflexivity]. Qed.

Lemma join_push (sep c : N) (p : jsstr) (ps : list jsstr) :
  join sep ((c :: p) :: ps) = c :: join sep (p :: ps).
Proof. destruct ps; reflexivity. Qed.

(** Joining the pieces of [s.split(sep)] with [sep] gives back [s]. *)
Lemma split_join_roundtrip (sep : N) (s : jsstr) :
  join sep (split_on sep s) = s.
Proof.
  induction s as [|c r IH]; [reflexivity |]. simpl.
  destruct (split_on_cons sep r) as (p & ps & Hs). rewrite Hs in *.
  destruct (N.eqb_spec c sep) as [->|_].
  - rewrite join_cons by discriminate. now rewrite IH.
  - now rewrite join_push, IH.
Qed.

Lemma jsstr_eqb_spec (a b : jsstr) : jsstr_eqb a b = true <-> a = b.
Proof. unfold jsstr_eqb. destruct (list_eq_dec _ _ _); split; congruence. Qed.
