(* ===== verification/Content.v ===== *)
(** * The page's constant collections

    [features] (lines 8-41), [historySlides] (lines 43-62) and the
    "daily favorites" array written inline in the grid section (lines
    306-311), with the records of their elements.  Text fields are
    JavaScript strings ([JsString.jsstr]); the card rotation is a number of
    degrees, exact here as a rational. *)

From Stdlib Require Import List NArith String QArith.
From S2P Require Import Prelude JsString.
Import ListNotations.

Local Open Scope string_scope.

Module Feature.
Record t := mk {
  title : jsstr;
  description : jsstr;
  price : jsstr;
  img : jsstr;
  color : jsstr;
  rotation : Q
}.
End Feature.

Module Slide.
Record t := mk {
  year : jsstr;
  title : jsstr;
  description : jsstr;
  img : jsstr
}.
End Slide.

Module Favorite.
Record t := mk {
  name : jsstr;
  price : jsstr;
  img : jsstr
}.
End Favorite.

Definition features : list Feature.t := [
  Feature.mk
    (utf16 "Red Velvet Royal")
    (utf16 "Capas esponjosas de cacao rojo profundo con nuestro frosting secreto de queso crema y vainilla.")
    (utf16 "$65")
    (utf16 "https://images.unsplash.com/photo-1616541823729-00fe0aacd32c?q=80&w=1000&auto=format&fit=crop")
    (utf16 "#fff1f2")
    (-2)%Q;
  Feature.mk
    (utf16 "Pistacho & Frambuesa")
    (utf16 "Equilibrio perfecto. Mousse de pistacho siciliano con corazón vibrante de frambuesa fresca.")
    (utf16 "$72")
    (utf16 "https://images.unsplash.com/photo-1563729784474-d77dbb933a9e?q=80&w=1000&auto=format&fit=crop")
    (utf16 "#f0fdf4")
    2%Q;
  Feature.mk
    (utf16 "Triple Chocolate Noir")
    (utf16 "Para los verdaderos amantes del cacao. 70% Cacao belga, bizcocho húmedo y ganache artesanal.")
    (utf16 "$68")
    (utf16 "https://images.unsplash.com/photo-1578985545062-69928b1d9587?q=80&w=1000&auto=format&fit=crop")
    (utf16 "#f8fafc")
    (-3 # 2)%Q;
  Feature.mk
    (utf16 "Colección Macarons")
    (utf16 "Joyas comestibles en caja de colección. Sabores de Lavanda, Rosa, Limón Eureka y Caramelo Salado.")
    (utf16 "$45")
    (utf16 "https://images.unsplash.com/photo-1569864358642-9d1684040f43?q=80&w=1000&auto=format&fit=crop")
    (utf16 "#fff7ed")
    (3 # 2)%Q
].

Definition historySlides : list Slide.t := [
  Slide.mk
    (utf16 "Desde 2015")
    (utf16 "La Ciencia del Sabor")
    (utf16 "Comenzamos en una pequeña cocina experimentando con texturas. Hoy, somos un laboratorio de sabores únicos.")
    (utf16 "https://images.unsplash.com/photo-1583338917451-face2751d8d5?q=80&w=800&auto=format&fit=crop");
  Slide.mk
    (utf16 "Innovación")
    (utf16 "Texturas Infinitas")
    (utf16 "Cada ingrediente es analizado para crear contrastes que desafían al paladar tradicional.")
    (utf16 "https://www.gob.mx/cms/uploads/article/main_image/30427/fresa-blog.jpg");
  Slide.mk
    (utf16 "Legado")
    (utf16 "Pasión Artesanal")
    (utf16 "Fusionamos la precisión de la arquitectura con la calidez de la repostería clásica.")
    (utf16 "https://images.unsplash.com/photo-1555507036-ab1f4038808a?q=80&w=800&auto=format&fit=crop")
].

Definition favorites : list Favorite.t := [
  Favorite.mk (utf16 "Croissant Almendra") (utf16 "$45")
    (utf16 "https://images.unsplash.com/photo-1555507036-ab1f4038808a?auto=format&fit=crop&q=80&w=400");
  Favorite.mk (utf16 "Latte de Rosas") (utf16 "$55")
    (utf16 "https://images.unsplash.com/photo-1541167760496-1628856ab772?auto=format&fit=crop&q=80&w=400");
  Favorite.mk (utf16 "Tartaleta Frutal") (utf16 "$60")
    (utf16 "https://imgs.search.brave.com/D6G2Jd6v7uOnh62HVGGg0pEgF3pw8v1-FZIbXoVzXIs/rs:fit:860:0:0:0/g:ce/aHR0cHM6Ly93d3cu/ZGVtb3NsYXZ1ZWx0/YWFsZGlhLmNvbS9z/aXRlcy9kZWZhdWx0/L2ZpbGVzL3RhcnRh/LWZydXRhbC5qcGc");
  Favorite.mk (utf16 "Cheesecake NY") (utf16 "$75")
    (utf16 "https://images.unsplash.com/photo-1533134242443-d4fd215305ad?auto=format&fit=crop&q=80&w=400")
].
