(* ===== verification/Timers.v ===== *)
(** * The browser timer table

    [App.tsx] uses three timer primitives of the host: [setInterval]
    (the slider, line 172), [setTimeout] (the form, lines 181 and 183) and
    [clearInterval] (the slider's effect cleanup, line 175).  This file
    models the table of pending timers those primitives manage, generically
    in the type [Cb] of callbacks:
    - a timer has an id, a due time in milliseconds, an optional period
      (intervals) and its callback;
    - ids come from one counter shared by timeouts and intervals, as in
      the HTML timer initialisation steps, and start at 1;
    - the event loop takes the earliest due timer (ties in id order, that
      is in scheduling order), moves the clock to its due time, removes a
      timeout and reschedules an interval one period later under the same
      id.
    The callbacks themselves are run by the page ([App]).  The invariant
    [wf] (unique ids below the counter, no timer due in the past, positive
    periods) is preserved by every operation. *)

From Stdlib Require Import List NArith Lia Bool.
From S2P Require Import Prelude.
Import ListNotations.

Local Open Scope N_scope.

Section Queue.
Context {Cb : Type}.

Record timer := mkTimer {
  t_id : N;
  t_due : N;
  t_period : option N;
  t_cb : Cb
}.

Record queue := mkQueue {
  q_now : N;
  q_next : N;
  q_timers : list timer
}.

(** The table of a fresh document at time [now]. *)
Definition empty_queue (now : N) : queue := mkQueue now 1 [].

(** The shared scheduling step of [setTimeout] and [setInterval]: the
    handle is the next id, the timer is due [delay] ms from now. *)
Definition schedule (cb : Cb) (delay : N) (period : option N) (q : queue)
  : N * queue :=
  let id := q_next q in
  (id, mkQueue (q_now q) (id + 1)
         (q_timers q ++ [mkTimer id (q_now q + delay) period cb])).

Definition setTimeout (cb : Cb) (delay : N) (q : queue) : N * queue :=
  schedule cb delay None q.

Definition setInterval (cb : Cb) (delay : N) (q : queue) : N * queue :=
  schedule cb delay (Some delay) q.

(** [clearInterval(id)] removes the timer with that handle, if any. *)
Definition clearInterval (id : N) (q : queue) : queue :=
  mkQueue (q_now q) (q_next q)
    (filter (fun t => negb (t_id t =? id)) (q_timers q)).

(** Firing order: earlier due time first, then lower id. *)
Definition earlier (a b : timer) : bool :=
  (t_due a <? t_due b) || ((t_due a =? t_due b) && (t_id a <? t_id b)).

Fixpoint earliest (l : list timer) : option timer :=
  match l with
  | [] => None
  | t :: rest =>
      match earliest rest with
      | None => Some t
      | Some u => if earlier u t then Some u else Some t
      end
  end.

(** The timer the loop runs next when the clock may go up to [limit]. *)
Definition next_due (limit : N) (q : queue) : option timer :=
  match earliest (q_timers q) with
  | Some t => if t_due t <=? limit then Some t else None
  | None => None
  end.

(** Take [t] out of the table to run it. *)
Definition take (t : timer) (q : queue) : queue :=
  let rest := filter (fun u => negb (t_id u =? t_id t)) (q_timers q) in
  mkQueue (t_due t) (q_next q)
    match t_period t with
    | None => rest
    | Some p => rest ++ [mkTimer (t_id t) (t_due t + p) (Some p) (t_cb t)]
    end.

(** Let the clock run to [limit] when nothing is due before it. *)
Definition advance (limit : N) (q : queue) : queue :=
  mkQueue (N.max (q_now q) limit) (q_next q) (q_timers q).

(** ** Well-formedness *)

Definition timer_ok (q : queue) (t : timer) : Prop :=
  t_id t < q_next q /\ q_now q <= t_due t /\
  match t_period t with Some p => 0 < p | None => True end.

Definition wf (q : queue) : Prop :=
  0 < q_next q /\ NoDup (map t_id (q_timers q)) /\
  Forall (timer_ok q) (q_timers q).

(** ** The earliest timer *)

Lemma earliest_In (l : list timer) (t : timer) :
  earliest l = Some t -> In t l.
Proof.
  revert t. induction l as [|x l IH]; intros t H; simpl in *; [discriminate |].
  destruct (earliest l) as [u|] eqn:E.
  - destruct (earlier u x); inv H; auto.
  - inv H. auto.
Qed.

Lemma earliest_None (l : list timer) : earliest l = None <-> l = [].
Proof.
  split; [| now intros ->].
  destruct l as [|x l]; simpl; [auto |].
  destruct (earliest l); [destruct (earlier _ _) |]; discriminate.
Qed.

(** The earliest timer is due no later than any other. *)
Lemma earliest_min (l : list timer) (t : timer) :
  earliest l = Some t -> forall u, In u l -> t_due t <= t_due u.
Proof.
  revert t. induction l as [|x l IH]; intros t H u Hu; simpl in *; [easy |].
  destruct (earliest l) as [v|] eqn:E.
  - specialize (IH v eq_refl).
    unfold earlier in H. destruct Hu as [<-|Hu].
    + destruct (_ || _) eqn:B; inv H; [| lia].
      bool_facts; lia.
    + destruct (_ || _) eqn:B; inv H; [auto |].
      bool_facts; specialize (IH u Hu); lia.
  - inv H. destruct Hu as [<-|Hu]; [lia |].
    apply earliest_None in E. subst. easy.
Qed.

Lemma next_due_Some (limit : N) (q : queue) (t : timer) :
  next_due limit q = Some t ->
  In t (q_timers q) /\ t_due t <= limit /\
  forall u, In u (q_timers q) -> t_due t <= t_due u.
Proof.
  unfold next_due. intros H. destruct (earliest _) as [u|] eqn:E; [| discriminate].
  destruct (t_due u <=? limit) eqn:L; inv H; bool_facts.
  repeat split; eauto using earliest_In, earliest_min.
Qed.

(** When nothing is due, every pending timer is due after [limit]. *)
Lemma next_due_None (limit : N) (q : queue) :
  next_due limit q = None -> forall u, In u (q_timers q) -> limit < t_due u.
Proof.
  unfold next_due. intros H u Hu. destruct (earliest _) as [t|] eqn:E.
  - destruct (t_due t <=? limit) eqn:L; [discriminate |]. bool_facts.
    pose proof (earliest_min _ _ E u Hu). lia.
  - apply earliest_None in E. rewrite E in Hu. easy.
Qed.
End Queue.

Arguments timer : clear implicits.
Arguments queue : clear implicits.

Section Wf.
Context {Cb : Type}.
Implicit Types (q : queue Cb) (t u : timer Cb).

Lemma wf_empty (now : N) : wf (@empty_queue Cb now).
Proof. split; [simpl; lia | split; constructor]. Qed.

(** The handle returned by the scheduling step is fresh. *)
Lemma schedule_fresh q cb delay period u :
  wf q -> In u (q_timers q) -> t_id u <> fst (schedule cb delay period q).
Proof.
  intros (_ & _ & Hok) Hu. rewrite Forall_forall in Hok.
  destruct (Hok u Hu) as (Hlt & _). simpl. lia.
Qed.

Lemma wf_schedule q cb delay period :
  wf q -> (forall p, period = Some p -> 0 < p) ->
  wf (snd (schedule cb delay period q)).
Proof.
  intros Hwf Hp. destruct Hwf as (Hn & Hnd & Hok). rewrite Forall_forall in Hok.
  repeat split; simpl; [lia | |].
  - apply NoDup_map_snoc; [exact Hnd |]. simpl.
    intros Hin. apply in_map_iff in Hin as (u & Hu & Hin).
    destruct (Hok u Hin) as (Hlt & _). lia.
  - apply Forall_forall. intros u Hu. apply in_app_or in Hu as [Hu|[<-|[]]].
    + destruct (Hok u Hu) as (? & ? & ?). repeat split; simpl; auto; lia.
    + repeat split; simpl; [lia | lia |]. destruct period; auto.
Qed.

Lemma clearInterval_In q id u :
  In u (q_timers (clearInterval id q)) <-> In u (q_timers q) /\ t_id u <> id.
Proof.
  simpl. rewrite filter_In, negb_true_iff, N.eqb_neq. tauto.
Qed.

Lemma wf_clearInterval q id : wf q -> wf (clearInterval id q).
Proof.
  intros (Hn & Hnd & Hok). repeat split; simpl; [lia | now apply NoDup_map_filter |].
  rewrite Forall_forall in *. intros u Hu. apply filter_In in Hu as [Hu _].
  exact (Hok u Hu).
Qed.

(** Taking a timer leaves every other timer in the table. *)
Lemma take_keeps q t u :
  In u (q_timers q) -> t_id u <> t_id t -> In u (q_timers (take t q)).
Proof.
  intros Hu Hne. unfold take; simpl.
  assert (Hr : In u (filter (fun v => negb (t_id v =? t_id t)) (q_timers q))).
  { apply filter_In. split; [exact Hu |]. now apply negb_true_iff, N.eqb_neq. }
  destruct (t_period t); [apply in_or_app; now left | exact Hr].
Qed.

Lemma wf_take q limit t : wf q -> next_due limit q = Some t -> wf (take t q).
Proof.
  intros (Hn & Hnd & Hok) Hnext.
  destruct (next_due_Some _ _ _ Hnext) as (Hin & _ & Hmin).
  rewrite Forall_forall in Hok. destruct (Hok t Hin) as (Ht1 & Ht2 & Ht3).
  assert (Hrest : forall v, In v (filter (fun v => negb (t_id v =? t_id t)) (q_timers q)) ->
                  timer_ok (take t q) v).
  { intros v Hv. apply filter_In in Hv as [Hv _].
    destruct (Hok v Hv) as (? & ? & ?). specialize (Hmin v Hv).
    repeat split; simpl; auto. }
  unfold take. destruct (t_period t) as [p|] eqn:Hp; repeat split; simpl; auto.
  - apply NoDup_map_snoc; [now apply NoDup_map_filter |]. simpl.
    intros Hx. apply in_map_iff in Hx as (v & Hv & Hx).
    apply filter_In in Hx as [_ Hx]. rewrite Hv, N.eqb_refl in Hx. discriminate.
  - apply Forall_forall. intros v Hv. apply in_app_or in Hv as [Hv|[<-|[]]].
    + exact (Hrest v Hv).
    + repeat split; simpl; [exact Ht1 | lia | exact Ht3].
  - now apply NoDup_map_filter.
  - apply Forall_forall. exact Hrest.
Qed.

Lemma wf_advance q limit : wf q -> next_due limit q = None -> wf (advance limit q).
Proof.
  intros (Hn & Hnd & Hok) Hnone. pose proof (next_due_None _ _ Hnone) as Hlate.
  repeat split; simpl; auto.
  rewrite Forall_forall in *. intros u Hu. destruct (Hok u Hu) as (H1 & H2 & H3).
  specialize (Hlate u Hu). split; [exact H1 | split; [simpl; lia | exact H3]].
Qed.
End Wf.

#[export] Hint Resolve wf_empty wf_clearInterval wf_take wf_advance : dulce.

(** ** Selecting timers by callback *)

Section Select.
Context {Cb : Type}.
Implicit Types (q : queue Cb) (t u : timer Cb).

(** The pending timers whose callback satisfies [pc]. *)
Definition select (pc : Cb -> bool) (l : list (timer Cb)) : list (timer Cb) :=
  filter (fun t => pc (t_cb t)) l.

Lemma select_app pc l1 l2 : select pc (l1 ++ l2) = select pc l1 ++ select pc l2.
Proof. apply filter_app. Qed.

(** Taking a timer of another kind leaves the selection unchanged. *)
Lemma select_take_other pc q t :
  wf q -> In t (q_timers q) -> pc (t_cb t) = false ->
  select pc (q_timers (take t q)) = select pc (q_timers q).
Proof.
  intros (_ & Hnd & _) Ht Hpc. unfold take, select; simpl.
  assert (Hrest : filter (fun u => pc (t_cb u))
            (filter (fun u => negb (t_id u =? t_id t)) (q_timers q)) =
          filter (fun u => pc (t_cb u)) (q_timers q)).
  { rewrite filter_filter_comm. apply filter_all.
    intros u Hu. apply filter_In in Hu as [Hu Hpu].
    apply negb_true_iff, N.eqb_neq. intros Heq.
    rewrite (NoDup_map_key _ _ u t Hnd Hu Ht Heq), Hpc in Hpu. discriminate. }
  destruct (t_period t); [rewrite filter_app; simpl; rewrite Hpc, app_nil_r |]; exact Hrest.
Qed.

(** Taking the only selected timer leaves its rescheduling, if any. *)
Lemma select_take_only pc q t :
  select pc (q_timers q) = [t] ->
  select pc (q_timers (take t q)) =
  match t_period t with
  | None => []
  | Some p => [mkTimer (t_id t) (t_due t + p) (Some p) (t_cb t)]
  end.
Proof.
  intros Hs. assert (Hpc : pc (t_cb t) = true).
  { assert (Hin : In t (select pc (q_timers q))) by (rewrite Hs; now left).
    apply filter_In in Hin. tauto. }
  assert (Hrest : filter (fun u => pc (t_cb u))
            (filter (fun u => negb (t_id u =? t_id t)) (q_timers q)) = []).
  { rewrite filter_filter_comm. unfold select in Hs. rewrite Hs. simpl.
    now rewrite N.eqb_refl. }
  unfold take, select; simpl. destruct (t_period t);
    [rewrite filter_app, Hrest; simpl; now rewrite Hpc | exact Hrest].
Qed.

(** Summing a weight over the table: the taken timer plus the rest. *)
Lemma sum_take (f : timer Cb -> nat) q t :
  wf q -> In t (q_timers q) ->
  list_sum (map f (q_timers q)) =
  (f t + list_sum (map f (filter (fun u => negb (t_id u =? t_id t)) (q_timers q))))%nat.
Proof. intros (_ & Hnd & _) Ht. now apply sum_remove_key. Qed.
End Select.

(** With no timer of a kind pending, taking a timer adds none. *)
Lemma select_take_empty {Cb : Type} (pc : Cb -> bool) (q : queue Cb) (t : timer Cb) :
  select pc (q_timers q) = [] -> In t (q_timers q) ->
  select pc (q_timers (take t q)) = [].
Proof.
  intros Hs Ht. assert (Hpc : pc (t_cb t) = false).
  { destruct (pc (t_cb t)) eqn:E; [| reflexivity].
    assert (H : In t (select pc (q_timers q))) by now apply filter_In.
    rewrite Hs in H. destruct H. }
  assert (Hr : filter (fun u => pc (t_cb u))
                 (filter (fun u => negb (t_id u =? t_id t)) (q_timers q)) = []).
  { rewrite filter_filter_comm. unfold select in Hs. now rewrite Hs. }
  unfold take, select; simpl. destruct (t_period t);
    [rewrite filter_app, Hr; simpl; now rewrite Hpc | exact Hr].
Qed.
