(* ===== verification/Runtime.v ===== *)
(** * The page's runtime state

    [App] keeps two [useState] cells (line 167: [formStatus], initially
    ['idle']; line 168: [currentSlide], initially [0]).  Around them the
    host keeps the timer table ([Timers]), whether the component is
    mounted, and the cleanup closure of the slider's effect, which captures
    the interval handle ([sliderTimer]).

    A React state setter called while the component is mounted replaces
    the cell's value (or applies the updater function); called after
    unmount it does nothing (React 18 drops the update).  Timer callbacks
    are the three closures the page creates, as constructors of [AppCb]. *)

From Stdlib Require Import List NArith Lia Bool.
From stdpp Require Import base decidable.
From S2P Require Import Prelude Timers.

(** [useState<'idle' | 'submitting' | 'success'>] *)
Inductive FormStatus := Idle | Submitting | Success.

#[export] Instance FormStatus_eq_dec : EqDecision FormStatus.
Proof. solve_decision. Defined.

(** The closures passed to the timer primitives. *)
Inductive AppCb :=
  | SlideTick    (** line 172: [() => setCurrentSlide(prev => ...)] *)
  | SubmitDelay  (** line 181: [() => { setFormStatus('success'); setTimeout(...) }] *)
  | SuccessHold. (** line 183: [() => setFormStatus('idle')] *)

#[export] Instance AppCb_eq_dec : EqDecision AppCb.
Proof. solve_decision. Defined.

Record World := mkWorld {
  formStatus : FormStatus;
  currentSlide : nat;
  mounted : bool;
  sliderTimer : option N;
  timers : queue AppCb
}.

(** Before the first render, at time [t0]. *)
Definition initial_world (t0 : N) : World :=
  mkWorld Idle 0 false None (empty_queue t0).

Definition with_timers (q : queue AppCb) (w : World) : World :=
  mkWorld (formStatus w) (currentSlide w) (mounted w) (sliderTimer w) q.

(** [setFormStatus(v)] *)
Definition setFormStatus (v : FormStatus) (w : World) : World :=
  if mounted w
  then mkWorld v (currentSlide w) true (sliderTimer w) (timers w)
  else w.

(** [setCurrentSlide(f)] with an updater function *)
Definition setCurrentSlide (f : nat -> nat) (w : World) : World :=
  if mounted w
  then mkWorld (formStatus w) (f (currentSlide w)) true (sliderTimer w) (timers w)
  else w.

(** The timer primitives, called from the page on its timer table. *)
Definition w_setTimeout (cb : AppCb) (delay : N) (w : World) : N * World :=
  let (id, q) := setTimeout cb delay (timers w) in (id, with_timers q w).

Definition w_setInterval (cb : AppCb) (delay : N) (w : World) : N * World :=
  let (id, q) := setInterval cb delay (timers w) in (id, with_timers q w).

Definition w_clearInterval (id : N) (w : World) : World :=
  with_timers (clearInterval id (timers w)) w.

(** The current time of the page. *)
Definition clock (w : World) : N := q_now (timers w).

(** ** Frame lemmas: what each setter leaves alone *)

(** A setter either writes its cell (mounted) or does nothing. *)
Ltac setter_cases :=
  unfold setFormStatus, setCurrentSlide;
  match goal with
  |- context [if mounted ?w then _ else _] => destruct (mounted w) eqn:?
  end;
  simpl; congruence.

Lemma setFormStatus_timers v w : timers (setFormStatus v w) = timers w.
Proof. setter_cases. Qed.
Lemma setFormStatus_slide v w : currentSlide (setFormStatus v w) = currentSlide w.
Proof. setter_cases. Qed.
Lemma setFormStatus_mounted v w : mounted (setFormStatus v w) = mounted w.
Proof. setter_cases. Qed.
Lemma setFormStatus_sliderTimer v w : sliderTimer (setFormStatus v w) = sliderTimer w.
Proof. setter_cases. Qed.
Lemma setFormStatus_status v w :
  formStatus (setFormStatus v w) = if mounted w then v else formStatus w.
Proof. setter_cases. Qed.
Lemma setCurrentSlide_timers f w : timers (setCurrentSlide f w) = timers w.
Proof. setter_cases. Qed.
Lemma setCurrentSlide_status f w : formStatus (setCurrentSlide f w) = formStatus w.
Proof. setter_cases. Qed.
Lemma setCurrentSlide_mounted f w : mounted (setCurrentSlide f w) = mounted w.
Proof. setter_cases. Qed.
Lemma setCurrentSlide_sliderTimer f w : sliderTimer (setCurrentSlide f w) = sliderTimer w.
Proof. setter_cases. Qed.
Lemma setCurrentSlide_slide f w :
  currentSlide (setCurrentSlide f w) =
  if mounted w then f (currentSlide w) else currentSlide w.
Proof. setter_cases. Qed.

#[export] Hint Rewrite setFormStatus_timers setFormStatus_slide setFormStatus_mounted
  setFormStatus_sliderTimer setFormStatus_status setCurrentSlide_timers
  setCurrentSlide_status setCurrentSlide_mounted setCurrentSlide_sliderTimer
  setCurrentSlide_slide : dulce_rw.

(** ** Views of the timer table *)

Definition is_tick (cb : AppCb) : bool :=
  match cb with SlideTick => true | _ => false end.

(** The pending timers of the slider (callback [SlideTick]). *)
Definition slider_timers (w : World) : list (timer AppCb) :=
  select is_tick (q_timers (timers w)).

(** The pending timers of the form (callbacks [SubmitDelay] and
    [SuccessHold]). *)
Definition form_timers (w : World) : list (timer AppCb) :=
  select (fun cb => negb (is_tick cb)) (q_timers (timers w)).

(** The number of pending timers running callback [cb]. *)
Definition count_cb (cb : AppCb) (w : World) : nat :=
  length (List.filter (fun t => bool_decide (t_cb t = cb)) (q_timers (timers w))).

Lemma w_setTimeout_timers cb delay w :
  q_timers (timers (snd (w_setTimeout cb delay w))) =
  q_timers (timers w) ++ [mkTimer (q_next (timers w)) (clock w + delay) None cb].
Proof. reflexivity. Qed.

Lemma w_setTimeout_fields cb delay w :
  let w' := snd (w_setTimeout cb delay w) in
  formStatus w' = formStatus w /\ currentSlide w' = currentSlide w /\
  mounted w' = mounted w /\ sliderTimer w' = sliderTimer w /\ clock w' = clock w.
Proof. repeat split. Qed.
