(* ===== verification/Slider.v ===== *)
(** * The history slider (App.tsx lines 170-176 and 233-281)

    State: the [currentSlide] cell of [Runtime.World] and the interval
    handle captured by the effect's cleanup ([sliderTimer]).
    Operations:
    - [slider_effect]: the body of the [useEffect] (line 171), which calls
      [setInterval] with a 5000 ms period and keeps the handle;
    - [slider_tick]: the interval callback (lines 172-174),
      [setCurrentSlide((prev) => (prev + 1) % historySlides.length)];
    - [slider_cleanup]: the function the effect returns (line 175),
      [clearInterval(timer)];
    - the rendering reads: [historySlides[currentSlide]] (lines 248, 268,
      271-275), the indicator bar (lines 253-255) and the two lines of the
      title (lines 271-272).
    The theorems: the index stays a valid slide, [k] ticks from 0 give
    [k mod 3], exactly one indicator is active, and the two title lines
    reassemble the title. *)

From Stdlib Require Import Arith List NArith Lia Bool.
From S2P Require Import Prelude JsString Content Timers Runtime.
Import ListNotations.

(** line 173: the updater passed to [setCurrentSlide] *)
Definition slide_next (prev : nat) : nat := (prev + 1) mod length historySlides.

(** lines 172-174: the interval's callback *)
Definition slider_tick (w : World) : World := setCurrentSlide slide_next w.

(** lines 171-176: the effect body; the returned cleanup closure captures
    the handle, kept in [sliderTimer]. *)
Definition slider_effect (w : World) : World :=
  let (id, w1) := w_setInterval SlideTick 5000 w in
  mkWorld (formStatus w1) (currentSlide w1) (mounted w1) (Some id) (timers w1).

(** line 175: the cleanup, run by React on unmount *)
Definition slider_cleanup (w : World) : World :=
  match sliderTimer w with
  | Some id =>
      let w1 := w_clearInterval id w in
      mkWorld (formStatus w1) (currentSlide w1) (mounted w1) None (timers w1)
  | None => w
  end.

(** lines 248, 268-275: the slide on screen, [historySlides[currentSlide]] *)
Definition current_slide (w : World) : option Slide.t :=
  historySlides.[currentSlide w].

(** lines 253-255: one bar per slide, wide ([w-12 bg-pink-500]) when
    [idx === currentSlide] *)
Definition indicators (cur : nat) : list bool :=
  map (fun idx => idx =? cur) (seq 0 (length historySlides)).

(** line 271: [title.split(' ')[0]] *)
Definition heading_first (title : jsstr) : option jsstr :=
  (split_on space title).[0].

(** line 272: [title.split(' ').slice(1).join(' ')] *)
Definition heading_rest (title : jsstr) : jsstr :=
  join space (skipn 1 (split_on space title)).

(** ** Lemmas *)

Lemma historySlides_length : length historySlides = 3.
Proof. reflexivity. Qed.

Lemma slide_next_lt (p : nat) : slide_next p < 3.
Proof. unfold slide_next. rewrite historySlides_length. apply Nat.mod_upper_bound. lia. Qed.

#[export] Hint Resolve slide_next_lt : dulce.

Lemma slider_tick_slide (w : World) :
  currentSlide (slider_tick w) =
  if mounted w then slide_next (currentSlide w) else currentSlide w.
Proof. apply setCurrentSlide_slide. Qed.

(** ** Properties *)

(** Starting from index 0, after [k] ticks of the interval
    the index is [k mod 3] (spec section 8: after 7 ticks, index 1). *)
Theorem slide_after_ticks (k : nat) : Nat.iter k slide_next 0 = k mod 3.
Proof.
  unfold slide_next. rewrite historySlides_length.
  exact (iter_succ_mod 3 k 0).
Qed.

(** C27: when the index is a valid slide, exactly one bar of
    the indicator is active, the one at the index. *)
Theorem indicators_one_active (cur : nat) :
  cur < length historySlides ->
  length (filter (fun b => b) (indicators cur)) = 1 /\
  (indicators cur).[cur] = Some true.
Proof.
  intros Hc. unfold indicators. split.
  - rewrite filter_map_swap, length_map.
    apply count_eqb_seq. lia.
  - rewrite nth_error_map, nth_error_seq.
    apply Nat.ltb_lt in Hc. rewrite Hc. cbn -[Nat.eqb]. now rewrite Nat.eqb_refl.
Qed.

Lemma indicators_one_active_witness :
  2 < length historySlides /\
  length (filter (fun b => b) (indicators 2)) = 1 /\ (indicators 2).[2] = Some true.
Proof.
  assert (H : 2 < length historySlides) by (rewrite historySlides_length; lia).
  split; [exact H | exact (indicators_one_active 2 H)].
Defined.

(** C28: the first line of the title is its first word, and the
    first line, a space and the second line together are the title; a
    title without a space is all first line. *)
Theorem heading_reassembles (title : jsstr) :
  exists first, heading_first title = Some first /\ ~ In space first /\
    (title = first /\ heading_rest title = [] \/
     title = first ++ space :: heading_rest title).
Proof.
  unfold heading_first, heading_rest.
  destruct (split_on_cons space title) as (f & ps & Hs).
  pose proof (split_join_roundtrip space title) as Hrt.
  pose proof (split_on_no_sep space title) as Hno.
  rewrite Hs in Hrt, Hno |- *. apply Forall_cons_iff in Hno as [Hf _].
  exists f. split; [reflexivity | split; [exact Hf |]].
  destruct ps as [|p ps]; [left | right]; simpl in *; subst; auto.
Qed.

(** One tick from [k mod 3] is [k + 1] ticks. *)
Lemma slide_next_mod (k : nat) : slide_next (k mod 3) = S k mod 3.
Proof.
  unfold slide_next. rewrite historySlides_length, mod_succ_idemp.
  f_equal. lia.
Qed.
