(* ===== verification/ContactForm.v ===== *)
(** * The contact form (App.tsx lines 178-185 and 358-381)

    State: the [formStatus] cell of [Runtime.World] and the two timeouts
    the submission schedules.  Operations:
    - [handleFormSubmit] (lines 178-185): [setFormStatus('submitting')]
      and a 1500 ms [setTimeout];
    - [on_submit_delay] (lines 181-184), that timeout's callback:
      [setFormStatus('success')] and a 4000 ms [setTimeout];
    - [on_success_hold] (line 183), the inner callback:
      [setFormStatus('idle')];
    - [render_form] (lines 360-379): the success panel when the status is
      ['success'], else the form, whose submit button is [disabled] and
      reads "Enviando..." while ['submitting'];
    - [submit_event]: the browser's form submission, which runs [onSubmit]
      only for a form that is on the page, whose required fields are valid
      and whose submit button is enabled.
    The handler itself has no guard against re-entry; only the rendering
    stops a second submission (spec section 9, open question). *)

From Stdlib Require Import List NArith Lia Bool String.
From stdpp Require Import base decidable.
From S2P Require Import Prelude JsString Timers Runtime.
Import ListNotations.

(** lines 178-185 *)
Definition handleFormSubmit (w : World) : World :=
  let w1 := setFormStatus Submitting w in
  snd (w_setTimeout SubmitDelay 1500 w1).

(** lines 181-184: the 1500 ms callback *)
Definition on_submit_delay (w : World) : World :=
  let w1 := setFormStatus Success w in
  snd (w_setTimeout SuccessHold 4000 w1).

(** line 183: the 4000 ms callback *)
Definition on_success_hold (w : World) : World := setFormStatus Idle w.

(** lines 360-379: what the form column shows *)
Inductive Panel :=
  | SuccessPanel
  | FormPanel (disabled : bool) (label : jsstr).

Definition render_form (s : FormStatus) : Panel :=
  if decide (s = Success) then SuccessPanel
  else FormPanel (bool_decide (s = Submitting))
         (if bool_decide (s = Submitting)
          then utf16 "Enviando..." else utf16 "Enviar Solicitud").

(** The browser submits the form (button click or implicit submission)
    only when it is rendered, its [required] fields are valid ([valid]) and
    its submit button is not disabled. *)
Definition submit_event (valid : bool) (w : World) : World :=
  match render_form (formStatus w) with
  | FormPanel false _ => if valid && mounted w then handleFormSubmit w else w
  | _ => w
  end.

(** ** Lemmas *)

Lemma render_form_enabled (s : FormStatus) :
  (exists l, render_form s = FormPanel false l) <-> s = Idle.
Proof.
  unfold render_form. split.
  - intros [l Hl]. destruct s; [reflexivity | discriminate | discriminate].
  - intros ->. eexists. reflexivity.
Qed.

(** Outside ['idle'] the submission never reaches the handler. *)
Lemma submit_event_blocked (valid : bool) (w : World) :
  formStatus w <> Idle -> submit_event valid w = w.
Proof.
  intros Hs. unfold submit_event.
  destruct (render_form (formStatus w)) as [|[] l] eqn:E; try reflexivity.
  exfalso. apply Hs, render_form_enabled. eauto.
Qed.

(** What the handler does on the mounted page. *)
Lemma handleFormSubmit_fields (w : World) :
  mounted w = true ->
  let w' := handleFormSubmit w in
  formStatus w' = Submitting /\ currentSlide w' = currentSlide w /\
  mounted w' = true /\ sliderTimer w' = sliderTimer w /\
  timers w' = snd (setTimeout SubmitDelay 1500 (timers w)).
Proof.
  intros Hm. unfold handleFormSubmit, setFormStatus. rewrite Hm. repeat split.
Qed.

(** The submission never touches the slider's index. *)
Lemma submit_event_slide (valid : bool) (w : World) :
  currentSlide (submit_event valid w) = currentSlide w.
Proof.
  unfold submit_event, handleFormSubmit.
  destruct (render_form _) as [|[] l]; [reflexivity | reflexivity |].
  destruct (valid && mounted w); [| reflexivity]. simpl. apply setFormStatus_slide.
Qed.

(** A page that is not mounted has no form to submit. *)
Lemma submit_event_unmounted (valid : bool) (w : World) :
  mounted w = false -> submit_event valid w = w.
Proof.
  intros Hm. unfold submit_event. rewrite Hm, andb_false_r.
  now destruct (render_form _) as [|[] l].
Qed.

(** ** Properties *)

(** C11: the form submission on every branch: it runs
    [handleFormSubmit] exactly when the fields are valid, the page is
    mounted and the status is ['idle'] (the button is disabled while
    ['submitting'] and the form is replaced by the confirmation while
    ['success']); otherwise nothing changes. *)
Theorem submit_event_spec (valid : bool) (w : World) :
  submit_event valid w =
  (if valid && mounted w && bool_decide (formStatus w = Idle)
   then handleFormSubmit w else w).
Proof.
  destruct (decide (formStatus w = Idle)) as [Hs|Hs].
  - rewrite (bool_decide_eq_true_2 _ Hs), andb_true_r.
    unfold submit_event. now rewrite Hs.
  - rewrite (bool_decide_eq_false_2 _ Hs), andb_false_r.
    now apply submit_event_blocked.
Qed.

(** C29: [handleFormSubmit] itself has no re-entry guard: called
    while a submission is pending, it schedules a second success timeout
    next to the first. *)
Theorem handleFormSubmit_reentrant (w : World) :
  mounted w = true ->
  count_cb SubmitDelay (handleFormSubmit w) = S (count_cb SubmitDelay w).
Proof.
  intros Hm. unfold count_cb, handleFormSubmit.
  rewrite w_setTimeout_timers, setFormStatus_timers, filter_app, length_app.
  simpl. lia.
Qed.

Lemma handleFormSubmit_reentrant_witness :
  let w := handleFormSubmit (mkWorld Idle 0 true None (empty_queue 0)) in
  mounted w = true /\ count_cb SubmitDelay (handleFormSubmit w) = S (count_cb SubmitDelay w).
Proof.
  intros w. assert (Hm : mounted w = true) by reflexivity.
  split; [exact Hm | exact (handleFormSubmit_reentrant w Hm)].
Defined.
