(* ===== verification/EventLoop.v ===== *)
(** * The browser's event loop running the page's timers

    [run_callback] runs a timer's closure ([Slider.slider_tick],
    [ContactForm.on_submit_delay], [ContactForm.on_success_hold]); [fire]
    takes the earliest due timer out of the table and runs it; [run_until]
    is the event loop run up to a time limit, with fuel.  [budget] is a
    measure that every firing lowers and so enough fuel (theorem
    [run_until_total]): [wait] is a total function.  Section
    [LoopInvariant] gives the induction principle of the loop, which
    [App] uses for the page's invariants. *)

From Stdlib Require Import Arith List NArith Lia Bool.
From stdpp Require Import base decidable.
From S2P Require Import Prelude Timers Runtime Slider ContactForm.
Import ListNotations.

(** ** The event loop *)

Definition run_callback (cb : AppCb) (w : World) : World :=
  match cb with
  | SlideTick => slider_tick w
  | SubmitDelay => on_submit_delay w
  | SuccessHold => on_success_hold w
  end.

Definition fire (t : timer AppCb) (w : World) : World :=
  run_callback (t_cb t) (with_timers (take t (timers w)) w).

(** Run every timer due up to [limit], in due order, then let the clock
    reach [limit].  [None] when the fuel runs out. *)
Fixpoint run_until (fuel : nat) (limit : N) (w : World) : option World :=
  match fuel with
  | O => None
  | S f =>
      match next_due limit (timers w) with
      | None => Some (with_timers (advance limit (timers w)) w)
      | Some t => run_until f limit (fire t w)
      end
  end.

(** Enough fuel: each timer counts once per run it has left before
    [limit], twice for the success timeout, whose run schedules another
    timer. *)
Definition cb_weight (cb : AppCb) : nat :=
  match cb with SubmitDelay => 2 | _ => 1 end.

Definition runs_left (limit : N) (t : timer AppCb) : nat :=
  match t_period t with
  | None => 1
  | Some p =>
      if (t_due t <=? limit)%N then N.to_nat ((limit - t_due t) / p) + 1 else 0
  end.

Definition timer_weight (limit : N) (t : timer AppCb) : nat :=
  runs_left limit t * cb_weight (t_cb t).

Definition budget (limit : N) (w : World) : nat :=
  S (list_sum (map (timer_weight limit) (q_timers (timers w)))).

Definition wait (limit : N) (w : World) : World :=
  match run_until (budget limit w) limit w with
  | Some w' => w'
  | None => w
  end.

(** ** The callbacks on the timer table *)

Lemma run_callback_timers (cb : AppCb) (w : World) :
  timers (run_callback cb w) =
  match cb with
  | SubmitDelay => snd (setTimeout SuccessHold 4000 (timers w))
  | _ => timers w
  end.
Proof.
  destruct cb; simpl; unfold slider_tick, on_submit_delay, on_success_hold, w_setTimeout;
    rewrite ?setCurrentSlide_timers, ?setFormStatus_timers; reflexivity.
Qed.

Lemma wf_fire (limit : N) (t : timer AppCb) (w : World) :
  wf (timers w) -> next_due limit (timers w) = Some t -> wf (timers (fire t w)).
Proof.
  intros Hwf Hn. unfold fire. rewrite run_callback_timers.
  pose proof (wf_take _ _ _ Hwf Hn) as Hwf'.
  destruct (t_cb t); try exact Hwf'.
  unfold setTimeout. apply wf_schedule; [exact Hwf' | discriminate].
Qed.

(** ** Termination of the event loop *)

(** A rescheduled interval has one run fewer left before [limit]. *)
Lemma runs_left_resched (limit p : N) (t : timer AppCb) :
  t_period t = Some p -> (0 < p)%N -> (t_due t <= limit)%N ->
  runs_left limit (mkTimer (t_id t) (t_due t + p) (Some p) (t_cb t)) + 1 =
  runs_left limit t.
Proof.
  intros Hp Hpos Hle. unfold runs_left. simpl. rewrite Hp.
  apply N.leb_le in Hle as Hle'. rewrite Hle'.
  destruct (N.leb_spec (t_due t + p) limit) as [Hle2|Hgt].
  - replace (limit - t_due t)%N with ((limit - (t_due t + p)) + 1 * p)%N by lia.
    rewrite N.div_add by lia. rewrite N2Nat.inj_add. simpl. lia.
  - rewrite N.div_small by lia. simpl. lia.
Qed.

(** Taking the next due timer out of the table frees at least its
    callback's weight. *)
Lemma budget_take (limit : N) (t : timer AppCb) (q : queue AppCb) :
  wf q -> next_due limit q = Some t ->
  list_sum (map (timer_weight limit) (q_timers (take t q))) + cb_weight (t_cb t) <=
  list_sum (map (timer_weight limit) (q_timers q)).
Proof.
  intros Hwf Hn. destruct (next_due_Some _ _ _ Hn) as (Hin & Hle & _).
  pose proof Hwf as (_ & _ & Hok). rewrite Forall_forall in Hok.
  destruct (Hok t Hin) as (_ & _ & Hper).
  rewrite (sum_take (timer_weight limit) q t Hwf Hin).
  unfold take. cbn [q_timers]. destruct (t_period t) as [p|] eqn:Hp.
  - rewrite map_app, list_sum_app. simpl list_sum.
    pose proof (runs_left_resched limit p t Hp Hper Hle) as Hr.
    unfold timer_weight in *. simpl t_cb in *. nia.
  - unfold timer_weight at 2, runs_left. rewrite Hp. lia.
Qed.

Lemma fire_timers (t : timer AppCb) (w : World) :
  q_timers (timers (fire t w)) =
  q_timers (take t (timers w)) ++
  match t_cb t with
  | SubmitDelay =>
      [mkTimer (q_next (take t (timers w))) (t_due t + 4000) None SuccessHold]
  | _ => []
  end.
Proof.
  unfold fire. rewrite run_callback_timers.
  destruct (t_cb t); simpl; rewrite ?app_nil_r; reflexivity.
Qed.

Lemma budget_fire (limit : N) (t : timer AppCb) (w : World) :
  wf (timers w) -> next_due limit (timers w) = Some t ->
  budget limit (fire t w) < budget limit w.
Proof.
  intros Hwf Hn. pose proof (budget_take _ _ _ Hwf Hn) as Hb.
  unfold budget. rewrite fire_timers, map_app, list_sum_app.
  destruct (t_cb t) eqn:Hcb; simpl in Hb |- *; lia.
Qed.

(** Enough fuel: the loop finishes with [budget] fuel or more. *)
Lemma run_until_enough (limit : N) (w : World) :
  wf (timers w) ->
  exists w', forall fuel, budget limit w <= fuel -> run_until fuel limit w = Some w'.
Proof.
  intros Hwf. remember (budget limit w) as n eqn:Hb.
  assert (Hle : budget limit w <= n) by lia. clear Hb.
  revert w Hwf Hle. induction n as [|n IH]; intros w Hwf Hle.
  - unfold budget in Hle. lia.
  - destruct (next_due limit (timers w)) as [t|] eqn:Hn.
    + pose proof (budget_fire _ _ _ Hwf Hn) as Hlt.
      destruct (IH (fire t w) (wf_fire _ _ _ Hwf Hn) ltac:(lia)) as (w' & Hw').
      exists w'. intros [|fuel] Hf; [unfold budget in Hf; lia |].
      simpl. rewrite Hn. apply Hw'. lia.
    + eexists. intros [|fuel] Hf; [unfold budget in Hf; lia |].
      simpl. now rewrite Hn.
Qed.

(** [wait] is what the loop returns with enough fuel. *)
Lemma wait_run (limit : N) (w : World) :
  wf (timers w) -> run_until (budget limit w) limit w = Some (wait limit w).
Proof.
  intros Hwf. destruct (run_until_enough limit w Hwf) as (w' & H).
  unfold wait. now rewrite (H _ (le_n _)).
Qed.

(** ** Loop invariants *)

Section LoopInvariant.
Variable limit : N.
Variables P Q : World -> Prop.
Hypothesis P_fire : forall w t,
  P w -> next_due limit (timers w) = Some t -> P (fire t w).
Hypothesis P_stop : forall w,
  P w -> next_due limit (timers w) = None ->
  Q (with_timers (advance limit (timers w)) w).

Lemma run_until_inv (fuel : nat) (w w' : World) :
  P w -> run_until fuel limit w = Some w' -> Q w'.
Proof.
  revert w. induction fuel as [|fuel IH]; intros w HP Hrun; [discriminate |].
  simpl in Hrun. destruct (next_due limit (timers w)) as [t|] eqn:Hn.
  - exact (IH _ (P_fire _ _ HP Hn) Hrun).
  - inv Hrun. now apply P_stop.
Qed.

Lemma wait_inv (w : World) : wf (timers w) -> P w -> Q (wait limit w).
Proof. intros Hwf HP. exact (run_until_inv _ _ _ HP (wait_run limit w Hwf)). Qed.
End LoopInvariant.

(** ** What firing a timer changes *)

Lemma fire_fields (t : timer AppCb) (w : World) :
  clock (fire t w) = t_due t /\ mounted (fire t w) = mounted w /\
  sliderTimer (fire t w) = sliderTimer w.
Proof.
  unfold fire, clock. rewrite run_callback_timers.
  destruct (t_cb t); simpl; unfold slider_tick, on_submit_delay, on_success_hold;
    autorewrite with dulce_rw; simpl; auto.
Qed.

Lemma fire_select (pc : AppCb -> bool) (t : timer AppCb) (w : World) :
  pc SuccessHold = false ->
  select pc (q_timers (timers (fire t w))) = select pc (q_timers (take t (timers w))).
Proof.
  intros Hpc. rewrite fire_timers, select_app.
  destruct (t_cb t); simpl; unfold select; simpl; rewrite ?Hpc; apply app_nil_r.
Qed.

Lemma select_In (pc : AppCb -> bool) (t : timer AppCb) (l : list (timer AppCb)) :
  In t l -> pc (t_cb t) = true -> In t (select pc l).
Proof. intros. now apply filter_In. Qed.

Lemma fire_state (t : timer AppCb) (w : World) :
  mounted w = true ->
  (formStatus (fire t w), currentSlide (fire t w)) =
  match t_cb t with
  | SlideTick => (formStatus w, slide_next (currentSlide w))
  | SubmitDelay => (Success, currentSlide w)
  | SuccessHold => (Idle, currentSlide w)
  end.
Proof.
  intros Hm. unfold fire.
  destruct (t_cb t); simpl; unfold slider_tick, on_submit_delay, on_success_hold, w_setTimeout;
    simpl; autorewrite with dulce_rw; simpl; rewrite ?Hm; reflexivity.
Qed.

(** ** Reasoning about [wait] without the invariant *)

Lemma wait_ind (P : World -> Prop) (limit : N) (w : World) :
  (forall v t, P v -> next_due limit (timers v) = Some t -> P (fire t v)) ->
  (forall v, P v -> next_due limit (timers v) = None ->
             P (with_timers (advance limit (timers v)) v)) ->
  P w -> P (wait limit w).
Proof.
  intros Hf Hs Hw. unfold wait.
  destruct (run_until (budget limit w) limit w) as [w'|] eqn:E; [| exact Hw].
  exact (run_until_inv limit P P Hf Hs _ _ _ Hw E).
Qed.

(** On an unmounted page a timer's callback changes no state cell. *)
Lemma fire_unmounted (t : timer AppCb) (w : World) :
  mounted w = false ->
  formStatus (fire t w) = formStatus w /\ currentSlide (fire t w) = currentSlide w /\
  mounted (fire t w) = false.
Proof.
  intros Hm. unfold fire.
  destruct (t_cb t); simpl; unfold slider_tick, on_submit_delay, on_success_hold, w_setTimeout;
    simpl; autorewrite with dulce_rw; simpl; rewrite ?Hm; auto.
Qed.

(** A tick writes [slide_next] of the index; other timers leave it. *)
Lemma fire_slide (t : timer AppCb) (w : World) :
  currentSlide (fire t w) = currentSlide w \/
  currentSlide (fire t w) = slide_next (currentSlide w).
Proof.
  destruct (mounted w) eqn:Hm.
  - pose proof (fire_state t w Hm) as Hs.
    destruct (t_cb t); injection Hs as _ Hs; auto.
  - left. apply (fire_unmounted t w Hm).
Qed.

(** ** Properties *)

(** C8: from a well-formed timer table, the event loop run up
    to [limit] finishes with any fuel from [budget limit w] on, and its
    result is [wait limit w]. *)
Theorem run_until_total (limit : N) (w : World) (fuel : nat) :
  wf (timers w) -> budget limit w <= fuel -> run_until fuel limit w = Some (wait limit w).
Proof.
  intros Hwf Hle. destruct (run_until_enough limit w Hwf) as (w' & H).
  unfold wait. rewrite (H _ (le_n _)). now apply H.
Qed.

Definition demo_world : World := slider_effect (mkWorld Idle 0 true None (empty_queue 0)).

Lemma run_until_total_witness :
  wf (timers demo_world) /\ budget 20000 demo_world <= 10 /\
  run_until 10 20000 demo_world = Some (wait 20000 demo_world).
Proof.
  assert (Hwf : wf (timers demo_world))
    by (vm_compute; split; [reflexivity | split; repeat constructor; simpl; try easy; discriminate]).
  assert (Hb : budget 20000 demo_world <= 10) by (vm_compute; lia).
  split; [exact Hwf | split; [exact Hb | apply (run_until_total 20000 _ 10 Hwf Hb)]].
Defined.
