(* ===== verification/App.v ===== *)
(** * The page: lifecycle, events and the timeline it implements

    [App] (lines 164-401) owns the two state cells and creates the timers;
    [EventLoop] runs them.  This file composes the components:
    - [mount], [unmount] and [dispatch] give the page's lifecycle and its
      events (a form submission, the passing of time, unmounting);
    - [Timeline] is the abstract specification of what the page shows at a
      time: slide [((t - t0) / 5000) mod 3], and the form status from the
      windows [[s, s+1500)], [[s+1500, s+5500)] after a submission at
      [s]; the refinement theorem relates the two;
    - the invariant [page_inv] of the mounted page, preserved by every
      timer firing and every event, and the teardown lemmas. *)

From Stdlib Require Import Arith List NArith Lia Bool.
From stdpp Require Import base decidable.
From S2P Require Import Prelude Timers Runtime Slider ContactForm EventLoop.
Import ListNotations.

(** ** Lifecycle and events *)

(** React mounts [App]: the cells hold their initial values, the component
    is on the page, and its effect (lines 171-176) runs. *)
Definition mount (w : World) : World :=
  slider_effect (mkWorld (formStatus w) (currentSlide w) true (sliderTimer w) (timers w)).

(** React unmounts [App]: the effect's cleanup runs and the component
    leaves the page. *)
Definition unmount (w : World) : World :=
  let w1 := slider_cleanup w in
  mkWorld (formStatus w1) (currentSlide w1) false (sliderTimer w1) (timers w1).

Inductive Event :=
  | Submit (valid : bool)  (** the user submits the form *)
  | Wait (limit : N)       (** time passes until [limit] ms *)
  | Unmount.               (** the page is torn down *)

Definition dispatch (e : Event) (w : World) : World :=
  match e with
  | Submit valid => submit_event valid w
  | Wait limit => wait limit w
  | Unmount => unmount w
  end.

Definition run_events (evs : list Event) (w : World) : World :=
  fold_left (fun w e => dispatch e w) evs w.

(** The page mounted at [t0], after the events [evs]. *)
Definition page (t0 : N) (evs : list Event) : World :=
  run_events evs (mount (initial_world t0)).

(** ** The timeline the page implements *)

(** The slide shown at time [t] by a page mounted at [m]. *)
Definition slide_at (m t : N) : nat := N.to_nat ((t - m) / 5000) mod 3.

(** The form status at time [t] after the last accepted submission. *)
Definition status_at (sub : option N) (t : N) : FormStatus :=
  match sub with
  | None => Idle
  | Some s =>
      if (t <? s + 1500)%N then Submitting
      else if (t <? s + 5500)%N then Success
      else Idle
  end.

Record Timeline := mkTimeline {
  tl_mount : N;
  tl_clock : N;
  tl_submit : option N
}.

(** The abstract page: a submission is accepted when the form is idle;
    time only moves forward. *)
Definition tl_event (e : Event) (σ : Timeline) : Timeline :=
  match e with
  | Submit valid =>
      if valid && bool_decide (status_at (tl_submit σ) (tl_clock σ) = Idle)
      then mkTimeline (tl_mount σ) (tl_clock σ) (Some (tl_clock σ))
      else σ
  | Wait limit => mkTimeline (tl_mount σ) (N.max (tl_clock σ) limit) (tl_submit σ)
  | Unmount => σ
  end.

Definition tl_run (evs : list Event) (σ : Timeline) : Timeline :=
  fold_left (fun σ e => tl_event e σ) evs σ.

(** ** The invariant of the mounted page *)

(** [k] ticks have run since the mount at [m]; the interval is next due
    at tick [k + 1]. *)
Definition slider_inv (m : N) (w : World) : Prop :=
  exists k id,
    currentSlide w = k mod 3 /\ sliderTimer w = Some id /\
    (m + 5000 * N.of_nat k <= clock w)%N /\
    slider_timers w = [mkTimer id (m + 5000 * (N.of_nat k + 1))%N (Some 5000%N) SlideTick].

(** The form's timer agrees with its status and the last submission. *)
Definition form_inv (sub : option N) (w : World) : Prop :=
  match formStatus w with
  | Idle =>
      form_timers w = [] /\
      match sub with None => True | Some s => (s + 5500 <= clock w)%N end
  | Submitting =>
      exists s i, sub = Some s /\ (s <= clock w)%N /\
        form_timers w = [mkTimer i (s + 1500) None SubmitDelay]
  | Success =>
      exists s i, sub = Some s /\ (s + 1500 <= clock w)%N /\
        form_timers w = [mkTimer i (s + 5500) None SuccessHold]
  end.

Definition page_inv (m : N) (sub : option N) (w : World) : Prop :=
  mounted w = true /\ wf (timers w) /\ slider_inv m w /\ form_inv sub w.

(** Between events no timer is due: every pending timer is in the future. *)
Definition quiet (w : World) : Prop :=
  forall u, In u (q_timers (timers w)) -> (clock w < t_due u)%N.

Lemma slider_inv_mono (m : N) (w w' : World) :
  currentSlide w' = currentSlide w -> sliderTimer w' = sliderTimer w ->
  slider_timers w' = slider_timers w -> (clock w <= clock w')%N ->
  slider_inv m w -> slider_inv m w'.
Proof.
  intros H1 H2 H3 H4 (k & id & Hk1 & Hk2 & Hk3 & Hk4).
  exists k, id. rewrite H1, H2, H3. repeat split; auto. lia.
Qed.

Lemma form_inv_mono (sub : option N) (w w' : World) :
  formStatus w' = formStatus w -> form_timers w' = form_timers w ->
  (clock w <= clock w')%N -> form_inv sub w -> form_inv sub w'.
Proof.
  unfold form_inv. intros H1 H2 H3. rewrite H1, H2.
  destruct (formStatus w).
  - intros [He Hs]. split; [exact He |]. destruct sub; lia.
  - intros (s & i & ? & ? & ?). exists s, i. repeat split; auto. lia.
  - intros (s & i & ? & ? & ?). exists s, i. repeat split; auto. lia.
Qed.

Lemma fire_timers_nonsubmit (t : timer AppCb) (w : World) :
  t_cb t <> SubmitDelay ->
  q_timers (timers (fire t w)) = q_timers (take t (timers w)).
Proof. intros Hcb. rewrite fire_timers. destruct (t_cb t); [apply app_nil_r | easy | apply app_nil_r]. Qed.

(** The next due timer was pending and is not in the past. *)
Lemma next_due_facts (limit : N) (t : timer AppCb) (w : World) :
  wf (timers w) -> next_due limit (timers w) = Some t ->
  In t (q_timers (timers w)) /\ (clock w <= t_due t <= limit)%N.
Proof.
  intros (_ & _ & Hok) Hn. destruct (next_due_Some _ _ _ Hn) as (Hin & Hle & _).
  rewrite Forall_forall in Hok. destruct (Hok t Hin) as (_ & Hc & _).
  unfold clock. auto.
Qed.

(** A view with a single timer pins down the taken timer. *)
Lemma select_single (pc : AppCb -> bool) (t u : timer AppCb) (l : list (timer AppCb)) :
  In t l -> pc (t_cb t) = true -> select pc l = [u] -> t = u.
Proof.
  intros Hin Hpc Hs. pose proof (select_In pc t l Hin Hpc) as H.
  rewrite Hs in H. destruct H as [->|[]]. reflexivity.
Qed.

Lemma fire_tick_inv (m : N) (sub : option N) (limit : N) (t : timer AppCb) (w : World) :
  page_inv m sub w -> next_due limit (timers w) = Some t -> t_cb t = SlideTick ->
  page_inv m sub (fire t w).
Proof.
  intros (Hm & Hwf & Hsl & Hfm) Hn Hcb.
  destruct (next_due_facts _ _ _ Hwf Hn) as (Hin & Hc & _).
  destruct Hsl as (k & id & Hk1 & Hk2 & Hk3 & Hk4).
  pose proof (select_single is_tick _ _ _ Hin ltac:(now rewrite Hcb) Hk4) as Ht.
  destruct (fire_fields t w) as (Hc' & Hm' & Hst').
  pose proof (fire_state t w Hm) as Hs. rewrite Hcb in Hs. injection Hs as Hs1 Hs2.
  split; [congruence | split; [exact (wf_fire _ _ _ Hwf Hn) | split]].
  - exists (S k), id. rewrite Hs2, Hk1, slide_next_mod, Hst', Hk2, Hc'.
    repeat split; [rewrite Ht; cbn [t_due]; lia |].
    unfold slider_timers. rewrite fire_timers_nonsubmit by (now rewrite Hcb).
    rewrite Ht, (select_take_only is_tick _ _ Hk4). cbn [t_period t_id t_due t_cb].
    do 2 f_equal. lia.
  - apply (form_inv_mono sub w); [exact Hs1 | | rewrite Hc'; exact Hc | exact Hfm].
    unfold form_timers. rewrite fire_timers_nonsubmit by (now rewrite Hcb).
    apply select_take_other; [exact Hwf | exact Hin | now rewrite Hcb].
Qed.

(** The slider's part is untouched by a form timer. *)
Lemma fire_form_slider (m : N) (limit : N) (t : timer AppCb) (w : World) :
  wf (timers w) -> next_due limit (timers w) = Some t -> t_cb t <> SlideTick ->
  mounted w = true -> slider_inv m w -> slider_inv m (fire t w).
Proof.
  intros Hwf Hn Hcb Hm Hsl. destruct (next_due_facts _ _ _ Hwf Hn) as (Hin & Hc & _).
  destruct (fire_fields t w) as (Hc' & _ & Hst').
  pose proof (fire_state t w Hm) as Hs.
  apply (slider_inv_mono m w); [| exact Hst' | | rewrite Hc'; exact Hc | exact Hsl].
  - destruct (t_cb t); [contradiction | |]; now injection Hs.
  - unfold slider_timers. rewrite fire_select by reflexivity.
    apply select_take_other; [exact Hwf | exact Hin |].
    destruct (t_cb t); [contradiction | reflexivity | reflexivity].
Qed.

Lemma fire_submit_inv (m : N) (sub : option N) (limit : N) (t : timer AppCb) (w : World) :
  page_inv m sub w -> next_due limit (timers w) = Some t -> t_cb t = SubmitDelay ->
  page_inv m sub (fire t w).
Proof.
  intros (Hm & Hwf & Hsl & Hfm) Hn Hcb.
  destruct (next_due_facts _ _ _ Hwf Hn) as (Hin & Hc & _).
  assert (Hpc : negb (is_tick (t_cb t)) = true) by now rewrite Hcb.
  destruct (fire_fields t w) as (Hc' & Hm' & Hst').
  pose proof (fire_state t w Hm) as Hs. rewrite Hcb in Hs. injection Hs as Hs1 Hs2.
  split; [congruence | split; [exact (wf_fire _ _ _ Hwf Hn) | split]].
  { apply (fire_form_slider m limit); auto. now rewrite Hcb. }
  unfold form_inv in Hfm |- *. rewrite Hs1.
  destruct (formStatus w).
  - destruct Hfm as [He _]. pose proof (select_In (fun cb => negb (is_tick cb)) t _ Hin Hpc) as H.
    unfold form_timers in He. rewrite He in H. destruct H.
  - destruct Hfm as (s & i & Hsub & Hs & Hft).
    pose proof (select_single (fun cb => negb (is_tick cb)) _ _ _ Hin Hpc Hft) as Ht.
    subst t. exists s, (q_next (take (mkTimer i (s + 1500) None SubmitDelay) (timers w))).
    rewrite Hc'. cbn [t_due]. repeat split; [exact Hsub | lia |].
    unfold form_timers. rewrite fire_timers, select_app, (select_take_only _ _ _ Hft).
    cbn. now replace (s + 1500 + 4000)%N with (s + 5500)%N by lia.
  - destruct Hfm as (s & i & _ & _ & Hft).
    pose proof (select_single (fun cb => negb (is_tick cb)) _ _ _ Hin Hpc Hft) as Ht.
    rewrite Ht in Hcb. discriminate.
Qed.

Lemma fire_hold_inv (m : N) (sub : option N) (limit : N) (t : timer AppCb) (w : World) :
  page_inv m sub w -> next_due limit (timers w) = Some t -> t_cb t = SuccessHold ->
  page_inv m sub (fire t w).
Proof.
  intros (Hm & Hwf & Hsl & Hfm) Hn Hcb.
  destruct (next_due_facts _ _ _ Hwf Hn) as (Hin & Hc & _).
  assert (Hpc : negb (is_tick (t_cb t)) = true) by now rewrite Hcb.
  destruct (fire_fields t w) as (Hc' & Hm' & Hst').
  pose proof (fire_state t w Hm) as Hs. rewrite Hcb in Hs. injection Hs as Hs1 Hs2.
  split; [congruence | split; [exact (wf_fire _ _ _ Hwf Hn) | split]].
  { apply (fire_form_slider m limit); auto. now rewrite Hcb. }
  unfold form_inv in Hfm |- *. rewrite Hs1.
  destruct (formStatus w).
  - destruct Hfm as [He _]. pose proof (select_In (fun cb => negb (is_tick cb)) t _ Hin Hpc) as H.
    unfold form_timers in He. rewrite He in H. destruct H.
  - destruct Hfm as (s & i & _ & _ & Hft).
    pose proof (select_single (fun cb => negb (is_tick cb)) _ _ _ Hin Hpc Hft) as Ht.
    rewrite Ht in Hcb. discriminate.
  - destruct Hfm as (s & i & Hsub & Hs & Hft).
    pose proof (select_single (fun cb => negb (is_tick cb)) _ _ _ Hin Hpc Hft) as Ht.
    split.
    + unfold form_timers. rewrite fire_timers_nonsubmit by (now rewrite Hcb).
      rewrite Ht, (select_take_only _ _ _ Hft). reflexivity.
    + rewrite Hsub, Hc', Ht. cbn [t_due]. lia.
Qed.

Lemma fire_inv (m : N) (sub : option N) (limit : N) (t : timer AppCb) (w : World) :
  page_inv m sub w -> next_due limit (timers w) = Some t -> page_inv m sub (fire t w).
Proof.
  intros Hi Hn. destruct (t_cb t) eqn:Hcb;
    eauto using fire_tick_inv, fire_submit_inv, fire_hold_inv.
Qed.

(** ** Waiting preserves the invariant and ends quiet *)

Lemma select_sub (pc : AppCb -> bool) (u : timer AppCb) (l : list (timer AppCb)) :
  In u (select pc l) -> In u l.
Proof. intros H. now apply filter_In in H. Qed.

Lemma advance_inv (m : N) (sub : option N) (limit : N) (w : World) :
  page_inv m sub w -> next_due limit (timers w) = None ->
  page_inv m sub (with_timers (advance limit (timers w)) w).
Proof.
  intros (Hm & Hwf & Hsl & Hfm) Hn. split; [exact Hm | split; [now apply wf_advance |]].
  assert (Hc : (clock w <= clock (with_timers (advance limit (timers w)) w))%N)
    by (unfold clock; simpl; lia).
  split; [apply (slider_inv_mono m w) | apply (form_inv_mono sub w)]; auto.
Qed.

Lemma wait_inv_quiet (m : N) (sub : option N) (limit : N) (w : World) :
  page_inv m sub w -> quiet w ->
  page_inv m sub (wait limit w) /\ quiet (wait limit w) /\
  clock (wait limit w) = N.max (clock w) limit.
Proof.
  intros Hi Hq. set (c0 := clock w).
  apply (wait_inv limit
    (fun v => page_inv m sub v /\ ((quiet v /\ clock v = c0) \/ (c0 <= clock v <= limit)%N))
    (fun v => page_inv m sub v /\ quiet v /\ clock v = N.max c0 limit)).
  - intros v t (Hv & Hcase) Hn. split; [exact (fire_inv m sub limit t v Hv Hn) |].
    right. destruct Hv as (_ & Hwf & _).
    destruct (next_due_facts _ _ _ Hwf Hn) as (_ & Hc & Hl).
    rewrite (proj1 (fire_fields t v)). destruct Hcase as [[_ Hc0]|]; lia.
  - intros v (Hv & Hcase) Hn. split; [exact (advance_inv m sub limit v Hv Hn) |].
    pose proof (next_due_None _ _ Hn) as Hlate. unfold quiet, clock in *. simpl.
    destruct Hcase as [[Hq' Hc]|Hc]; split.
    + intros u Hu. specialize (Hlate u Hu). specialize (Hq' u Hu). lia.
    + lia.
    + intros u Hu. specialize (Hlate u Hu). lia.
    + lia.
  - exact (proj1 (proj2 Hi)).
  - split; [exact Hi | left; split; [exact Hq | reflexivity]].
Qed.

(** ** What the quiet page shows *)

Lemma observe_inv (m : N) (sub : option N) (w : World) :
  page_inv m sub w -> quiet w ->
  currentSlide w = slide_at m (clock w) /\ formStatus w = status_at sub (clock w).
Proof.
  intros (_ & _ & Hsl & Hfm) Hq. split.
  - destruct Hsl as (k & id & Hk1 & _ & Hk3 & Hk4).
    assert (Hin : In (mkTimer id (m + 5000 * (N.of_nat k + 1)) (Some 5000%N) SlideTick)
                     (q_timers (timers w))).
    { apply (select_sub is_tick). unfold slider_timers in Hk4. rewrite Hk4. now left. }
    specialize (Hq _ Hin). cbn [t_due] in Hq.
    assert (Hd : ((clock w - m) / 5000 = N.of_nat k)%N).
    { symmetry. apply N.div_unique with (clock w - m - 5000 * N.of_nat k)%N; lia. }
    unfold slide_at. now rewrite Hd, Nat2N.id.
  - unfold form_inv, status_at in *. destruct (formStatus w).
    + destruct Hfm as [_ Hs]. destruct sub as [s|]; [| reflexivity].
      destruct (N.ltb_spec (clock w) (s + 1500)); [lia |].
      destruct (N.ltb_spec (clock w) (s + 5500)); [lia | reflexivity].
    + destruct Hfm as (s & i & -> & Hs & Hft).
      assert (Hin : In (mkTimer i (s + 1500) None SubmitDelay) (q_timers (timers w))).
      { apply (select_sub (fun cb => negb (is_tick cb))). unfold form_timers in Hft.
        rewrite Hft. now left. }
      specialize (Hq _ Hin). cbn [t_due] in Hq.
      destruct (N.ltb_spec (clock w) (s + 1500)); [reflexivity | lia].
    + destruct Hfm as (s & i & -> & Hs & Hft).
      assert (Hin : In (mkTimer i (s + 5500) None SuccessHold) (q_timers (timers w))).
      { apply (select_sub (fun cb => negb (is_tick cb))). unfold form_timers in Hft.
        rewrite Hft. now left. }
      specialize (Hq _ Hin). cbn [t_due] in Hq.
      destruct (N.ltb_spec (clock w) (s + 1500)); [lia |].
      destruct (N.ltb_spec (clock w) (s + 5500)); [reflexivity | lia].
Qed.

(** ** Mount and submission *)

Lemma mount_inv (t0 : N) :
  page_inv t0 None (mount (initial_world t0)) /\ quiet (mount (initial_world t0)) /\
  clock (mount (initial_world t0)) = t0.
Proof.
  split; [| split].
  - split; [reflexivity | split; [| split]].
    + unfold wf. cbn. split; [lia | split].
      * constructor; [easy | constructor].
      * constructor; [unfold timer_ok; cbn; lia | constructor].
    + exists 0%nat, 1%N.
      split; [reflexivity | split; [reflexivity | split; [unfold clock; cbn; lia |]]].
      reflexivity.
    + split; reflexivity.
  - intros u [<-|[]]. simpl. unfold clock. simpl. lia.
  - reflexivity.
Qed.

Lemma submit_inv (m : N) (sub : option N) (valid : bool) (w : World) :
  page_inv m sub w -> quiet w ->
  let sub' := if valid && bool_decide (status_at sub (clock w) = Idle)
              then Some (clock w) else sub in
  page_inv m sub' (submit_event valid w) /\ quiet (submit_event valid w) /\
  clock (submit_event valid w) = clock w.
Proof.
  intros Hi Hq. destruct (observe_inv m sub w Hi Hq) as (_ & Hobs). rewrite <- Hobs.
  destruct (decide (formStatus w = Idle)) as [Hs|Hs].
  2: { rewrite (bool_decide_eq_false_2 _ Hs), andb_false_r, submit_event_blocked by exact Hs.
       auto. }
  rewrite (bool_decide_eq_true_2 _ Hs), andb_true_r.
  destruct valid; [| unfold submit_event; rewrite Hs; auto].
  destruct Hi as (Hm & Hwf & Hsl & Hfm).
  assert (He : submit_event true w = handleFormSubmit w)
    by (unfold submit_event; now rewrite Hs, Hm).
  rewrite He. destruct (handleFormSubmit_fields w Hm) as (H1 & H2 & H3 & H4 & H5).
  assert (Hc : clock (handleFormSubmit w) = clock w) by (unfold clock; now rewrite H5).
  unfold form_inv in Hfm. rewrite Hs in Hfm. destruct Hfm as [Hft _].
  split; [split; [exact H3 | split; [| split]] | split; [| exact Hc]].
  - rewrite H5. unfold setTimeout. apply wf_schedule; [exact Hwf | discriminate].
  - apply (slider_inv_mono m w); auto; [| lia].
    unfold slider_timers. rewrite H5. simpl. rewrite select_app. apply app_nil_r.
  - unfold form_inv. rewrite H1. exists (clock w), (q_next (timers w)).
    repeat split; [lia |]. unfold form_timers in *. rewrite H5. simpl.
    rewrite select_app, Hft. reflexivity.
  - intros u Hu. rewrite Hc. rewrite H5 in Hu. simpl in Hu.
    apply in_app_or in Hu as [Hu|[<-|[]]]; [exact (Hq u Hu) | simpl; unfold clock; lia].
Qed.

(** ** Refinement of the timeline *)

(** The page and the abstract timeline agree: invariant, no overdue timer,
    same clock. *)
Definition refines (w : World) (σ : Timeline) : Prop :=
  page_inv (tl_mount σ) (tl_submit σ) w /\ quiet w /\ clock w = tl_clock σ.

Lemma dispatch_refines (e : Event) (w : World) (σ : Timeline) :
  e <> Unmount -> refines w σ -> refines (dispatch e w) (tl_event e σ).
Proof.
  intros He (Hi & Hq & Hc). destruct e as [valid|limit|]; [| | contradiction]; simpl.
  - destruct (submit_inv _ _ valid w Hi Hq) as (Hi' & Hq' & Hc').
    rewrite Hc in Hi', Hc'.
    destruct (valid && bool_decide (status_at (tl_submit σ) (tl_clock σ) = Idle));
      exact (conj Hi' (conj Hq' Hc')).
  - destruct (wait_inv_quiet _ _ limit w Hi Hq) as (Hi' & Hq' & Hc').
    refine (conj Hi' (conj Hq' _)). cbn [tl_clock]. now rewrite Hc', Hc.
Qed.

Lemma run_events_refines (evs : list Event) (w : World) (σ : Timeline) :
  Forall (fun e => e <> Unmount) evs -> refines w σ ->
  refines (run_events evs w) (tl_run evs σ).
Proof.
  revert w σ. induction evs as [|e evs IH]; intros w σ Hall Hr; [exact Hr |].
  inv Hall. apply IH; [assumption |]. now apply dispatch_refines.
Qed.

Lemma page_refines (t0 : N) (evs : list Event) :
  Forall (fun e => e <> Unmount) evs ->
  refines (page t0 evs) (tl_run evs (mkTimeline t0 t0 None)).
Proof.
  intros Hall. apply run_events_refines; [exact Hall |].
  destruct (mount_inv t0) as (Hi & Hq & Hc). exact (conj Hi (conj Hq Hc)).
Qed.

Lemma tl_mount_run (evs : list Event) (σ : Timeline) :
  tl_mount (tl_run evs σ) = tl_mount σ.
Proof.
  revert σ. induction evs as [|e evs IH]; intros σ; [reflexivity |].
  simpl. rewrite IH. destruct e; simpl; [destruct (_ && _) |..]; reflexivity.
Qed.

(** ** Unmounting *)

Lemma unmount_fields (w : World) :
  formStatus (unmount w) = formStatus w /\ currentSlide (unmount w) = currentSlide w /\
  mounted (unmount w) = false.
Proof. unfold unmount, slider_cleanup. destruct (sliderTimer w); auto. Qed.

(** Every event keeps the slide index among the slides. *)
Lemma dispatch_slide_lt (e : Event) (w : World) :
  currentSlide w < 3 -> currentSlide (dispatch e w) < 3.
Proof.
  intros H. destruct e as [valid|limit|]; cbn [dispatch].
  - now rewrite submit_event_slide.
  - apply wait_ind; [| | exact H].
    + intros v t Hv _. destruct (fire_slide t v) as [->| ->]; auto using slide_next_lt.
    + intros v Hv _. exact Hv.
  - now rewrite (proj1 (proj2 (unmount_fields w))).
Qed.

(** After unmount no event changes a state cell and the page stays
    unmounted. *)
Lemma dispatch_unmounted (e : Event) (w : World) :
  mounted w = false ->
  formStatus (dispatch e w) = formStatus w /\ currentSlide (dispatch e w) = currentSlide w /\
  mounted (dispatch e w) = false.
Proof.
  intros Hm. destruct e as [valid|limit|]; cbn [dispatch].
  - now rewrite submit_event_unmounted.
  - set (a := formStatus w). set (b := currentSlide w).
    apply (wait_ind (fun v => formStatus v = a /\ currentSlide v = b /\ mounted v = false)).
    + intros v t (H1 & H2 & H3) _. destruct (fire_unmounted t v H3) as (G1 & G2 & G3).
      repeat split; congruence.
    + intros v Hv _. exact Hv.
    + auto.
  - apply unmount_fields.
Qed.

(** After unmount no event brings a slider timer back. *)
Lemma dispatch_no_tick (e : Event) (w : World) :
  mounted w = false -> slider_timers w = [] ->
  slider_timers (dispatch e w) = [] /\ mounted (dispatch e w) = false.
Proof.
  intros Hm Hs. destruct e as [valid|limit|]; cbn [dispatch].
  - now rewrite submit_event_unmounted.
  - apply (wait_ind (fun v => slider_timers v = [] /\ mounted v = false)); [| | auto].
    + intros v t (H1 & H2) Hn. destruct (next_due_Some _ _ _ Hn) as (Hin & _).
      split; [| exact (proj2 (proj2 (fire_unmounted t v H2)))].
      unfold slider_timers in *. rewrite fire_select by reflexivity.
      exact (select_take_empty _ _ _ H1 Hin).
    + intros v Hv _. exact Hv.
  - split; [| apply unmount_fields].
    unfold unmount, slider_cleanup, slider_timers in *. destruct (sliderTimer w); [| exact Hs].
    simpl. unfold select in *. rewrite filter_filter_comm, Hs. reflexivity.
Qed.

(** ** Time moves forward in the timeline *)

(** The clock never runs behind the mount or the last submission. *)
Definition tl_ordered (σ : Timeline) : Prop :=
  (tl_mount σ <= tl_clock σ)%N /\
  forall s, tl_submit σ = Some s -> (s <= tl_clock σ)%N.

Lemma tl_run_ordered (evs : list Event) (σ : Timeline) :
  tl_ordered σ -> tl_ordered (tl_run evs σ).
Proof.
  revert σ. induction evs as [|e evs IH]; intros σ (Hm & Hs); [split; assumption |].
  apply IH. destruct e as [valid| limit |]; cbn [tl_event].
  - destruct (_ && _); split; cbn; [lia | intros s Hs'; inv Hs'; lia | lia | exact Hs].
  - split; cbn; [lia | intros s Hs'; specialize (Hs s Hs'); lia].
  - split; assumption.
Qed.

Lemma page_snoc (t0 : N) (evs : list Event) (e : Event) :
  page t0 (evs ++ [e]) = dispatch e (page t0 evs).
Proof. unfold page, run_events. now rewrite fold_left_app. Qed.

Lemma tl_run_snoc (evs : list Event) (e : Event) (σ : Timeline) :
  tl_run (evs ++ [e]) σ = tl_event e (tl_run evs σ).
Proof. unfold tl_run. now rewrite fold_left_app. Qed.

(** The page after a last wait, seen through the timeline. *)
Lemma page_wait_view (t0 : N) (evs : list Event) (d : N) :
  Forall (fun e => e <> Unmount) evs ->
  tl_ordered (tl_run evs (mkTimeline t0 t0 None)) /\
  clock (page t0 evs) = tl_clock (tl_run evs (mkTimeline t0 t0 None)) /\
  currentSlide (wait (clock (page t0 evs) + d) (page t0 evs)) =
    slide_at t0 (clock (page t0 evs) + d) /\
  formStatus (wait (clock (page t0 evs) + d) (page t0 evs)) =
    status_at (tl_submit (tl_run evs (mkTimeline t0 t0 None))) (clock (page t0 evs) + d).
Proof.
  intros Hall.
  assert (Ho : tl_ordered (tl_run evs (mkTimeline t0 t0 None)))
    by (apply tl_run_ordered; split; cbn; [lia | discriminate]).
  destruct (page_refines t0 evs Hall) as (_ & _ & Hc).
  assert (Hall' : Forall (fun e => e <> Unmount) (evs ++ [Wait (clock (page t0 evs) + d)]))
    by (apply Forall_app; split; [exact Hall | repeat constructor; discriminate]).
  destruct (page_refines t0 _ Hall') as (Hi & Hq & Hc').
  destruct (observe_inv _ _ _ Hi Hq) as (H1 & H2).
  rewrite tl_mount_run in H1. rewrite page_snoc in H1, H2, Hc'.
  rewrite tl_run_snoc in H2, Hc'. cbn [dispatch tl_event tl_clock tl_submit tl_mount] in *.
  rewrite Hc', <- Hc, N.max_r in H1, H2 by lia.
  exact (conj Ho (conj Hc (conj H1 H2))).
Qed.

(** From any slide index, one of the next three steps lands on [j]. *)
Lemma mod3_reach (k j : nat) : j < 3 -> exists i, i < 3 /\ (k + i) mod 3 = j.
Proof.
  intros Hj. exists ((j + 3 - k mod 3) mod 3).
  rewrite <- Nat.Div0.add_mod_idemp_l. pose proof (Nat.mod_upper_bound k 3 ltac:(lia)).
  destruct (k mod 3) as [|[|[|r]]]; [..| lia];
    (destruct j as [|[|[|j]]]; [..| lia]); split; (reflexivity || cbn; lia).
Qed.

(** The slide index of every page is below 3. *)
Lemma page_slide_lt (t0 : N) (evs : list Event) : currentSlide (page t0 evs) < 3.
Proof.
  unfold page, run_events.
  assert (H0 : currentSlide (mount (initial_world t0)) < 3) by (cbn; lia).
  revert H0. generalize (mount (initial_world t0)).
  induction evs as [|e evs IH]; intros w Hw; simpl; auto using dispatch_slide_lt.
Qed.

(** Mounted at [t0] and left alone until [l], the page shows the slide
    of the timeline at [max t0 l]. *)
Lemma page_wait_slide (t0 l : N) :
  currentSlide (page t0 [Wait l]) = slide_at t0 (N.max t0 l).
Proof.
  destruct (page_refines t0 [Wait l] ltac:(repeat constructor; discriminate))
    as (Hi & Hq & Hc).
  destruct (observe_inv _ _ _ Hi Hq) as (H1 & _).
  rewrite H1, Hc. reflexivity.
Qed.

(** ** The order of the form's statuses *)

(** The cycle the form is meant to follow: ['idle'], ['submitting'],
    ['success'], ['idle'] again. *)
Definition next_status (s : FormStatus) : FormStatus :=
  match s with Idle => Submitting | Submitting => Success | Success => Idle end.

(** One task moves the status at most one place along the cycle. *)
Definition status_step (a b : FormStatus) : Prop := b = a \/ b = next_status a.

(** On the mounted page a pending form timer runs the callback of the
    status it was scheduled in. *)
Lemma form_timer_status (m : N) (sub : option N) (w : World) (t : timer AppCb) :
  page_inv m sub w -> In t (q_timers (timers w)) -> t_cb t <> SlideTick ->
  (t_cb t = SubmitDelay /\ formStatus w = Submitting) \/
  (t_cb t = SuccessHold /\ formStatus w = Success).
Proof.
  intros (_ & _ & _ & Hfm) Hin Hcb.
  assert (Hpc : negb (is_tick (t_cb t)) = true) by (destruct (t_cb t); easy).
  unfold form_inv in Hfm. destruct (formStatus w).
  - destruct Hfm as [He _]. pose proof (select_In (fun cb => negb (is_tick cb)) t _ Hin Hpc) as H.
    unfold form_timers in He. rewrite He in H. destruct H.
  - destruct Hfm as (s & i & _ & _ & Hft).
    rewrite (select_single (fun cb => negb (is_tick cb)) _ _ _ Hin Hpc Hft). now left.
  - destruct Hfm as (s & i & _ & _ & Hft).
    rewrite (select_single (fun cb => negb (is_tick cb)) _ _ _ Hin Hpc Hft). now right.
Qed.

(** A timer task moves the status at most one place. *)
Lemma fire_status_step (w : World) (l : N) (t : timer AppCb) :
  (mounted w = false \/ exists m sub, page_inv m sub w) ->
  next_due l (timers w) = Some t -> status_step (formStatus w) (formStatus (fire t w)).
Proof.
  intros [Hm | (m & sub & Hi)] Hn; [left; apply (fire_unmounted t w Hm) |].
  pose proof Hi as (Hm & Hwf & _). destruct (next_due_facts _ _ _ Hwf Hn) as (Hin & _).
  pose proof (fire_state t w Hm) as Hs.
  destruct (t_cb t) eqn:Hcb; injection Hs as Hs _; [now left | |];
    destruct (form_timer_status m sub w t Hi Hin ltac:(congruence)) as [[H1 H2]|[H1 H2]];
    try congruence; right; now rewrite Hs, H2.
Qed.

(** A submission moves the status at most one place. *)
Lemma submit_status_step (valid : bool) (w : World) :
  status_step (formStatus w) (formStatus (submit_event valid w)).
Proof.
  destruct (formStatus w) eqn:Hs; [| left; now rewrite submit_event_blocked, Hs by congruence
                                    | left; now rewrite submit_event_blocked, Hs by congruence].
  unfold submit_event. rewrite Hs. cbn [render_form].
  destruct (valid && mounted w) eqn:E; [| now left].
  apply andb_true_iff in E as [_ Hm]. right. exact (proj1 (handleFormSubmit_fields w Hm)).
Qed.

(** Every page is unmounted or implements some timeline. *)
Lemma page_reachable (t0 : N) (evs : list Event) :
  mounted (page t0 evs) = false \/ exists σ, refines (page t0 evs) σ.
Proof.
  unfold page, run_events.
  assert (H0 : mounted (mount (initial_world t0)) = false \/
               exists σ, refines (mount (initial_world t0)) σ).
  { right. exists (mkTimeline t0 t0 None). destruct (mount_inv t0) as (Hi & Hq & Hc).
    exact (conj Hi (conj Hq Hc)). }
  revert H0. generalize (mount (initial_world t0)).
  induction evs as [|e evs IH]; intros w Hw; [exact Hw |]. cbn [fold_left]. apply IH.
  destruct Hw as [Hm | (σ & Hr)].
  - left. exact (proj2 (proj2 (dispatch_unmounted e w Hm))).
  - destruct e as [valid|limit|].
    + right. exists (tl_event (Submit valid) σ). apply dispatch_refines; [discriminate | exact Hr].
    + right. exists (tl_event (Wait limit) σ). apply dispatch_refines; [discriminate | exact Hr].
    + left. exact (proj2 (proj2 (unmount_fields w))).
Qed.

(** ** Properties *)

(** C1: the mounted page implements the timeline: after any
    sequence of submissions and waits (no unmount), the slide shown is
    [((t - t0) / 5000) mod 3] and the form status is [status_at] of the
    last accepted submission, at the page's clock [t], which is the
    timeline's clock. *)
Theorem page_refines_timeline (t0 : N) (evs : list Event) :
  Forall (fun e => e <> Unmount) evs ->
  let σ := tl_run evs (mkTimeline t0 t0 None) in
  currentSlide (page t0 evs) = slide_at t0 (tl_clock σ) /\
  formStatus (page t0 evs) = status_at (tl_submit σ) (tl_clock σ) /\
  clock (page t0 evs) = tl_clock σ.
Proof.
  intros Hall σ. destruct (page_refines t0 evs Hall) as (Hi & Hq & Hc).
  pose proof (tl_mount_run evs (mkTimeline t0 t0 None)) as Hm.
  destruct (observe_inv _ _ _ Hi Hq) as (H1 & H2). subst σ.
  rewrite Hm in H1. rewrite Hc in H1, H2. auto.
Qed.


Lemma page_refines_timeline_witness :
  Forall (fun e => e <> Unmount) [Wait 2000; Submit true; Wait 9000] /\
  (let σ := tl_run [Wait 2000; Submit true; Wait 9000] (mkTimeline 0 0 None) in
   currentSlide (page 0 [Wait 2000; Submit true; Wait 9000]) = slide_at 0 (tl_clock σ) /\
   formStatus (page 0 [Wait 2000; Submit true; Wait 9000]) =
     status_at (tl_submit σ) (tl_clock σ) /\
   clock (page 0 [Wait 2000; Submit true; Wait 9000]) = tl_clock σ).
Proof.
  assert (H : Forall (fun e => e <> Unmount) [Wait 2000; Submit true; Wait 9000])
    by (repeat constructor; discriminate).
  split; [exact H | exact (page_refines_timeline 0 _ H)].
Defined.

(** C3: mounted at [t0] and left alone until [t], the page
    shows slide [((t - t0) / 5000) mod 3]: one step every 5000 ms, the
    first at [t0 + 5000]. *)
Theorem slider_timing (t0 t : N) :
  (t0 <= t)%N ->
  currentSlide (page t0 [Wait t]) = N.to_nat ((t - t0) / 5000) mod 3.
Proof.
  intros Hle. rewrite page_wait_slide. unfold slide_at. now rewrite N.max_r.
Qed.

Lemma slider_timing_witness :
  (0 <= 35000)%N /\ currentSlide (page 0 [Wait 35000]) = N.to_nat ((35000 - 0) / 5000) mod 3.
Proof. split; [lia | apply slider_timing; lia]. Defined.

(** C2: a submission at [s] on an idle page shows
    ['submitting'] for 1500 ms, then ['success'] for 4000 ms, then
    ['idle'] again (5500 ms after the submission). *)
Theorem form_timing (t0 s d : N) :
  (t0 <= s)%N ->
  formStatus (page t0 [Wait s; Submit true; Wait (s + d)]) =
  if (d <? 1500)%N then Submitting else if (d <? 5500)%N then Success else Idle.
Proof.
  intros Hle.
  destruct (page_refines t0 [Wait s; Submit true; Wait (s + d)]
              ltac:(repeat constructor; discriminate)) as (Hi & Hq & Hc).
  destruct (observe_inv _ _ _ Hi Hq) as (_ & H2).
  rewrite H2, Hc. unfold tl_run.
  cbn [fold_left tl_event tl_clock tl_submit tl_mount status_at].
  rewrite (N.max_r t0 s), bool_decide_eq_true_2 by (lia || reflexivity).
  cbn [andb tl_clock tl_submit]. rewrite (N.max_r s (s + d)) by lia. unfold status_at.
  destruct (N.ltb_spec (s + d) (s + 1500)), (N.ltb_spec d 1500); try lia; [reflexivity |].
  destruct (N.ltb_spec (s + d) (s + 5500)), (N.ltb_spec d 5500); try lia; reflexivity.
Qed.

Lemma form_timing_witness :
  (100 <= 2000)%N /\
  formStatus (page 100 [Wait 2000; Submit true; Wait (2000 + 1500)]) =
  (if (1500 <? 1500)%N then Submitting else if (1500 <? 5500)%N then Success else Idle).
Proof. split; [lia | apply form_timing; lia]. Defined.


(** C5: on every page, after any events (submissions, waits,
    unmount), [historySlides[currentSlide]] is a slide: the index never
    leaves [0 .. 2]. *)
Theorem page_slide_defined (t0 : N) (evs : list Event) :
  exists s, current_slide (page t0 evs) = Some s.
Proof.
  apply nth_error_lt_Some. rewrite historySlides_length. apply page_slide_lt.
Qed.

(** C4: while the page is mounted, at most one form timer
    is pending, and one exactly when the form is not idle: submissions
    never overlap. *)
Theorem no_overlapping_submissions (t0 : N) (evs : list Event) :
  Forall (fun e => e <> Unmount) evs ->
  length (form_timers (page t0 evs)) =
  (if bool_decide (formStatus (page t0 evs) = Idle) then 0 else 1).
Proof.
  intros Hall. destruct (page_refines t0 evs Hall) as ((_ & _ & _ & Hfm) & _).
  unfold form_inv in Hfm. destruct (formStatus (page t0 evs)).
  - now destruct Hfm as [-> _].
  - now destruct Hfm as (s & i & _ & _ & ->).
  - now destruct Hfm as (s & i & _ & _ & ->).
Qed.

Lemma no_overlapping_submissions_witness :
  Forall (fun e => e <> Unmount) [Wait 1000; Submit true] /\
  length (form_timers (page 0 [Wait 1000; Submit true])) =
  (if bool_decide (formStatus (page 0 [Wait 1000; Submit true]) = Idle) then 0 else 1).
Proof.
  assert (H : Forall (fun e => e <> Unmount) [Wait 1000; Submit true])
    by (repeat constructor; discriminate).
  split; [exact H | exact (no_overlapping_submissions 0 _ H)].
Defined.

(** The cleanup of the mounted page clears the slider's interval. *)
Lemma unmount_slider_timers (m : N) (sub : option N) (w : World) :
  page_inv m sub w -> slider_timers (unmount w) = [].
Proof.
  intros (_ & _ & (k & id & _ & Hid & _ & Hk4) & _).
  unfold unmount, slider_cleanup, slider_timers in *. rewrite Hid. simpl.
  unfold select in *. rewrite filter_filter_comm, Hk4. simpl. now rewrite N.eqb_refl.
Qed.

(** C6: unmounting the mounted page releases the slider's
    interval for good: no slider timer is ever pending again, whatever
    happens next. *)
Theorem unmount_stops_slider (m : N) (sub : option N) (w : World) (evs : list Event) :
  page_inv m sub w -> slider_timers (run_events evs (unmount w)) = [].
Proof.
  intros Hi. pose proof (unmount_slider_timers m sub w Hi) as H0.
  pose proof (proj2 (proj2 (unmount_fields w))) as Hm. revert H0 Hm.
  generalize (unmount w). induction evs as [|e evs IH]; intros v Hs Hm; [exact Hs |].
  simpl. destruct (dispatch_no_tick e v Hm Hs) as (H1 & H2). now apply IH.
Qed.

Lemma unmount_stops_slider_witness :
  page_inv 0 None (mount (initial_world 0)) /\
  slider_timers (run_events [Wait 20000; Submit true] (unmount (mount (initial_world 0)))) = [].
Proof.
  pose proof (proj1 (mount_inv 0)) as Hi.
  split; [exact Hi | exact (unmount_stops_slider 0 None _ [Wait 20000; Submit true] Hi)].
Defined.

(** C7: the effect cleanup is the page's only teardown, and
    it leaves the form's pending timeouts in the table: the 1500 ms and
    4000 ms callbacks still run after unmount (their state updates are
    dropped by React). *)
Theorem unmount_keeps_form_timers (m : N) (sub : option N) (w : World) :
  page_inv m sub w -> form_timers (unmount w) = form_timers w.
Proof.
  intros (_ & (_ & Hnd & _) & (k & id & _ & Hid & _ & Hk4) & _).
  assert (Hin : In (mkTimer id (m + 5000 * (N.of_nat k + 1)) (Some 5000%N) SlideTick)
                   (q_timers (timers w))).
  { apply (select_sub is_tick). unfold slider_timers in Hk4. rewrite Hk4. now left. }
  unfold unmount, slider_cleanup, form_timers. rewrite Hid. simpl.
  unfold select. rewrite filter_filter_comm. apply filter_all.
  intros u Hu. apply filter_In in Hu as [Hu Hf].
  apply negb_true_iff, N.eqb_neq. intros Heq.
  rewrite (NoDup_map_key t_id _ u _ Hnd Hu Hin Heq) in Hf. discriminate.
Qed.

Lemma unmount_keeps_form_timers_witness :
  page_inv 0 (Some 0%N) (page 0 [Submit true]) /\
  form_timers (unmount (page 0 [Submit true])) = form_timers (page 0 [Submit true]).
Proof.
  assert (Hi : page_inv 0 (Some 0%N) (page 0 [Submit true]))
    by exact (proj1 (page_refines 0 [Submit true] ltac:(repeat constructor; discriminate))).
  split; [exact Hi | exact (unmount_keeps_form_timers 0 (Some 0%N) _ Hi)].
Defined.

(** C9: the form always comes back: from any state of the
    mounted page, 5500 ms later the form is ['idle'] and accepts a new
    submission. *)
Theorem form_returns_idle (t0 : N) (evs : list Event) :
  Forall (fun e => e <> Unmount) evs ->
  formStatus (wait (clock (page t0 evs) + 5500) (page t0 evs)) = Idle.
Proof.
  intros Hall. destruct (page_wait_view t0 evs 5500 Hall) as ((_ & Hs) & Hc & _ & ->).
  destruct (tl_submit _) as [s|] eqn:E; [| reflexivity].
  specialize (Hs s eq_refl). cbn. rewrite <- Hc in Hs.
  destruct (N.ltb_spec (clock (page t0 evs) + 5500) (s + 1500)); [lia |].
  destruct (N.ltb_spec (clock (page t0 evs) + 5500) (s + 5500)); [lia | reflexivity].
Qed.

Lemma form_returns_idle_witness :
  Forall (fun e => e <> Unmount) [Wait 300; Submit true; Wait 1000] /\
  formStatus (wait (clock (page 0 [Wait 300; Submit true; Wait 1000]) + 5500)
                   (page 0 [Wait 300; Submit true; Wait 1000])) = Idle.
Proof.
  assert (H : Forall (fun e => e <> Unmount) [Wait 300; Submit true; Wait 1000])
    by (repeat constructor; discriminate).
  split; [exact H | exact (form_returns_idle 0 _ H)].
Defined.

(** C10: every slide comes back: from any state of the mounted
    page, each of the three slides is shown after waiting 0, 5000 or
    10000 ms. *)
Theorem every_slide_recurs (t0 : N) (evs : list Event) (j : nat) :
  Forall (fun e => e <> Unmount) evs -> j < 3 ->
  exists i, i < 3 /\
    currentSlide (wait (clock (page t0 evs) + 5000 * N.of_nat i) (page t0 evs)) = j.
Proof.
  intros Hall Hj.
  destruct (page_wait_view t0 evs 0 Hall) as ((Hm & _) & Hc & _).
  rewrite tl_mount_run in Hm. cbn [tl_mount] in Hm. rewrite <- Hc in Hm.
  destruct (mod3_reach (N.to_nat ((clock (page t0 evs) - t0) / 5000)) j Hj) as (i & Hi & Hk).
  exists i. split; [exact Hi |].
  destruct (page_wait_view t0 evs (5000 * N.of_nat i) Hall) as (_ & _ & -> & _).
  unfold slide_at. rewrite <- Hk. f_equal.
  replace (clock (page t0 evs) + 5000 * N.of_nat i - t0)%N
    with ((clock (page t0 evs) - t0) + N.of_nat i * 5000)%N by lia.
  rewrite N.div_add by lia. rewrite N2Nat.inj_add, Nat2N.id. reflexivity.
Qed.

Lemma every_slide_recurs_witness :
  Forall (fun e => e <> Unmount) [Wait 7300] /\ 2 < 3 /\
  exists i, i < 3 /\
    currentSlide (wait (clock (page 0 [Wait 7300]) + 5000 * N.of_nat i) (page 0 [Wait 7300])) = 2.
Proof.
  assert (H : Forall (fun e => e <> Unmount) [Wait 7300]) by (repeat constructor; discriminate).
  split; [exact H | split; [lia | exact (every_slide_recurs 0 _ 2 H ltac:(lia))]].
Defined.

(** C12: the form's statuses follow the cycle ['idle'],
    ['submitting'], ['success'], ['idle'] (spec section 3: transitions are
    strictly linear): on every page, after any events, unmount included,
    the next task (the due timer's callback, or a form submission) moves
    the status at most one place along the cycle and never skips
    ['submitting']. *)
Theorem form_status_linear (t0 : N) (evs : list Event) (l : N) (t : timer AppCb) (valid : bool) :
  (next_due l (timers (page t0 evs)) = Some t ->
   status_step (formStatus (page t0 evs)) (formStatus (fire t (page t0 evs)))) /\
  status_step (formStatus (page t0 evs)) (formStatus (submit_event valid (page t0 evs))).
Proof.
  split; [| apply submit_status_step]. intros Hn. apply (fire_status_step _ l); [| exact Hn].
  destruct (page_reachable t0 evs) as [Hm | (σ & Hi & _)]; [now left | right; eauto].
Qed.

Lemma form_status_linear_witness :
  exists t, next_due 2000 (timers (page 0 [Submit true])) = Some t /\
    status_step (formStatus (page 0 [Submit true])) (formStatus (fire t (page 0 [Submit true]))).
Proof.
  destruct (next_due 2000 (timers (page 0 [Submit true]))) as [t|] eqn:E;
    [| vm_compute in E; discriminate E].
  exists t. split; [reflexivity | exact (proj1 (form_status_linear 0 [Submit true] 2000 t true) E)].
Defined.
