(* ===== verification/Presence.v ===== *)
(** * AnimatePresence with [mode="wait"] (App.tsx lines 237-251, 259-278, 360-380)

    The page wraps its changing children in framer-motion's
    [<AnimatePresence mode="wait">]: the slider's image and text, keyed by
    [currentSlide] (lines 239 and 261), and the form column, keyed
    ["success"] / ["form"] (lines 362 and 368).  framer-motion documents
    [mode="wait"] as rendering one child at a time: when the child's key
    changes, the old child plays its exit animation and the new one is
    rendered only once that exit has finished.  Modelled here, generic in
    the key type, as a machine over two events: a re-render with a
    child of some key, and the passing of [dt] ms.  A child whose key
    comes back while it exits is shown again; a re-render during an exit
    replaces the child that waits.  The exit lasts [d] ms: the
    [transition] of the exiting element (0.8 s for the image, line 243,
    0.5 s for the text, line 265).

    [presence_step] is the machine as a function and [pstep] as a
    labelled step relation, one constructor per rule; they agree.

    Composed with the slider ([App.page]), the image shown at time [t] is
    the slide the page had at [t - 0.8 s]. *)

From Stdlib Require Import List NArith Arith Lia Bool.
From S2P Require Import Prelude Content Slider Runtime EventLoop App.
Import ListNotations.

Section Machine.
Context {K : Type} (keqb : K -> K -> bool).
Hypothesis keqb_spec : forall a b, keqb a b = true <-> a = b.
Variable d : N.

Inductive Presence :=
  | Showing (k : K)
  | Exiting (old next : K) (left : N).

Inductive PEvent :=
  | Rerender (k : K)
  | Elapse (dt : N).

Definition presence_step (e : PEvent) (s : Presence) : Presence :=
  match e, s with
  | Rerender k, Showing c => if keqb k c then Showing c else Exiting c k d
  | Rerender k, Exiting o n r => if keqb k o then Showing o else Exiting o k r
  | Elapse _, Showing c => Showing c
  | Elapse dt, Exiting o n r => if (r <=? dt)%N then Showing n else Exiting o n (r - dt)
  end.

(** The one child in the DOM. *)
Definition shown (s : Presence) : K :=
  match s with Showing k => k | Exiting o _ _ => o end.

Definition run_presence (evs : list PEvent) (s : Presence) : Presence :=
  fold_left (fun s e => presence_step e s) evs s.

(** The key of the children last rendered. *)
Definition latest (k0 : K) (evs : list PEvent) : K :=
  fold_left (fun k e => match e with Rerender k' => k' | Elapse _ => k end) evs k0.

Inductive pstep : PEvent -> Presence -> Presence -> Prop :=
  | PS_same k c : keqb k c = true -> pstep (Rerender k) (Showing c) (Showing c)
  | PS_leave k c : keqb k c = false -> pstep (Rerender k) (Showing c) (Exiting c k d)
  | PS_back k o n r : keqb k o = true -> pstep (Rerender k) (Exiting o n r) (Showing o)
  | PS_queue k o n r : keqb k o = false -> pstep (Rerender k) (Exiting o n r) (Exiting o k r)
  | PS_idle dt c : pstep (Elapse dt) (Showing c) (Showing c)
  | PS_done dt o n r : (r <= dt)%N -> pstep (Elapse dt) (Exiting o n r) (Showing n)
  | PS_wait dt o n r : (dt < r)%N -> pstep (Elapse dt) (Exiting o n r) (Exiting o n (r - dt)).

(** The child shown is the latest one, or for at most [d] more ms the
    different one it replaces. *)
Definition presence_ok (k : K) (s : Presence) : Prop :=
  match s with
  | Showing c => c = k
  | Exiting o n r => n = k /\ o <> n /\ (0 < r <= d)%N
  end.

Lemma pstep_presence_step (e : PEvent) (s s' : Presence) :
  pstep e s s' <-> presence_step e s = s'.
Proof.
  split.
  - intros H; destruct H; cbn; rewrite ?H; try reflexivity.
    + now rewrite (proj2 (N.leb_le r dt) H).
    + now rewrite (proj2 (N.leb_gt r dt) H).
  - intros <-. destruct e as [k|dt], s as [c|o n r]; cbn.
    + destruct (keqb k c) eqn:E; constructor; exact E.
    + destruct (keqb k o) eqn:E; constructor; exact E.
    + constructor.
    + destruct (N.leb_spec r dt); constructor; lia.
Qed.

(** One step keeps [presence_ok] for the key the step leaves latest. *)
Lemma pstep_ok (k : K) (e : PEvent) (s s' : Presence) :
  (0 < d)%N -> pstep e s s' -> presence_ok k s ->
  presence_ok (match e with Rerender k' => k' | Elapse _ => k end) s'.
Proof.
  intros Hd H Hok. destruct H; cbn in *.
  - apply keqb_spec in H. now subst.
  - split; [reflexivity | split; [| lia]]. intros <-.
    rewrite (proj2 (keqb_spec c c) eq_refl) in H. discriminate.
  - symmetry. now apply keqb_spec.
  - destruct Hok as (_ & _ & Hr). split; [reflexivity | split; [| exact Hr]].
    intros <-. rewrite (proj2 (keqb_spec o o) eq_refl) in H. discriminate.
  - exact Hok.
  - now destruct Hok.
  - destruct Hok as (Hn & Hne & Hr). repeat split; auto; lia.
Qed.

(** Any run from [Showing k0] keeps [presence_ok] for the latest key. *)
Lemma run_presence_ok (k : K) (evs : list PEvent) (s : Presence) :
  (0 < d)%N -> presence_ok k s -> presence_ok (latest k evs) (run_presence evs s).
Proof.
  intros Hd. revert k s. induction evs as [|e evs IH]; intros k s Hok; [exact Hok |].
  cbn. apply IH. apply (pstep_ok k e s); [exact Hd | now apply pstep_presence_step | exact Hok].
Qed.

(** From a state that is [presence_ok], the exit is over after [d] ms. *)
Lemma presence_ok_elapse (k : K) (s : Presence) :
  presence_ok k s -> presence_step (Elapse d) s = Showing k.
Proof.
  destruct s as [c|o n r]; cbn; [now intros -> |].
  intros (-> & _ & _ & Hr). now rewrite (proj2 (N.leb_le r d) Hr).
Qed.

(** [AnimatePresence mode="wait"] renders one child at a time, for any
    exit duration. *)
Lemma presence_one_child (k0 : K) (evs : list PEvent) :
  (0 < d)%N ->
  presence_ok (latest k0 evs) (run_presence evs (Showing k0)) /\
  presence_step (Elapse d) (run_presence evs (Showing k0)) = Showing (latest k0 evs).
Proof.
  intros Hd. pose proof (run_presence_ok k0 evs (Showing k0) Hd eq_refl) as Hok.
  split; [exact Hok | exact (presence_ok_elapse _ _ Hok)].
Qed.

End Machine.

Arguments Presence : clear implicits.
Arguments PEvent : clear implicits.
Arguments Showing {K} k.
Arguments Exiting {K} old next left.
Arguments Rerender {K} k.
Arguments Elapse {K} dt.


(** ** The slider's two presences (lines 237-251 and 259-278) *)

(** lines 243 and 265: [transition={{ duration: 0.8 }}] on the image,
    [transition={{ duration: 0.5 }}] on the text, in ms *)
Definition image_exit_ms : N := 800.
Definition text_exit_ms : N := 500.

(** The key the slider's children get at time [t] ([key={currentSlide}],
    lines 239 and 261): the page's index then, for a page mounted at
    [t0]. *)
Definition slider_key (t0 t : N) : nat := currentSlide (page t0 [Wait t]).

(** The presence keyed by [currentSlide] after [k] ticks of the slider,
    right at the [k]th tick: between ticks 5000 ms pass, and at each tick
    [App] re-renders with the key the page has then.  (Re-renders between
    ticks, after a form update, carry the same key and leave the presence
    as it is.) *)
Fixpoint slider_presence_ticks (d t0 : N) (k : nat) : Presence nat :=
  match k with
  | O => Showing (slider_key t0 t0)
  | S m =>
      presence_step Nat.eqb d (Rerender (slider_key t0 (t0 + 5000 * N.of_nat (S m))))
        (presence_step Nat.eqb d (Elapse 5000) (slider_presence_ticks d t0 m))
  end.

(** The presence [el] ms after a mount at [t0]. *)
Definition slider_presence (d t0 el : N) : Presence nat :=
  presence_step Nat.eqb d (Elapse (el mod 5000))
    (slider_presence_ticks d t0 (N.to_nat (el / 5000))).

(** At the [k]th tick the key is [k mod 3]. *)
Lemma slider_key_tick (t0 : N) (k : nat) :
  slider_key t0 (t0 + 5000 * N.of_nat k) = k mod 3.
Proof.
  unfold slider_key. rewrite page_wait_slide. unfold slide_at.
  replace (N.max t0 (t0 + 5000 * N.of_nat k) - t0)%N with (N.of_nat k * 5000)%N by lia.
  now rewrite N.div_mul, Nat2N.id by lia.
Qed.

Lemma succ_mod3_neq (m : nat) : Nat.eqb (S m mod 3) (m mod 3) = false.
Proof.
  apply Nat.eqb_neq. replace (S m) with (m + 1) by lia.
  rewrite <- Nat.Div0.add_mod_idemp_l. pose proof (Nat.mod_upper_bound m 3 ltac:(lia)).
  destruct (m mod 3) as [|[|[|r]]]; cbn; lia.
Qed.

Lemma slider_key_mount (t0 : N) : slider_key t0 t0 = 0.
Proof. pose proof (slider_key_tick t0 0) as H. now rewrite N.add_0_r in H. Qed.

(** Right after tick [m + 1], the previous slide exits. *)
Lemma slider_presence_ticks_S (d t0 : N) (m : nat) :
  (0 < d <= 5000)%N ->
  slider_presence_ticks d t0 (S m) = Exiting (m mod 3) (S m mod 3) d.
Proof.
  intros Hd. induction m as [|m IH].
  - cbn [slider_presence_ticks]. now rewrite slider_key_tick, slider_key_mount.
  - change (slider_presence_ticks d t0 (S (S m))) with
      (presence_step Nat.eqb d (Rerender (slider_key t0 (t0 + 5000 * N.of_nat (S (S m)))))
         (presence_step Nat.eqb d (Elapse 5000) (slider_presence_ticks d t0 (S m)))).
    rewrite IH, slider_key_tick. cbn [presence_step].
    rewrite (proj2 (N.leb_le d 5000)) by lia. cbn [presence_step].
    now rewrite succ_mod3_neq.
Qed.

Lemma div_sub_ge (el d : N) :
  (d <= el mod 5000)%N -> ((el - d) / 5000 = el / 5000)%N.
Proof.
  intros H. pose proof (N.div_mod el 5000 ltac:(lia)). pose proof (N.mod_lt el 5000 ltac:(lia)).
  symmetry. apply (N.div_unique _ _ _ (el mod 5000 - d)); lia.
Qed.

Lemma div_sub_lt (el d : N) :
  (el mod 5000 < d <= 5000)%N -> (1 <= el / 5000)%N -> ((el - d) / 5000 = el / 5000 - 1)%N.
Proof.
  intros H Hk. pose proof (N.div_mod el 5000 ltac:(lia)). pose proof (N.mod_lt el 5000 ltac:(lia)).
  symmetry. apply (N.div_unique _ _ _ (5000 + el mod 5000 - d)); [lia |].
  remember (el / 5000)%N as q. remember (el mod 5000)%N as r. subst el. lia.
Qed.

Lemma div_sub_zero (el d : N) : (el / 5000 = 0)%N -> ((el - d) / 5000 = 0)%N.
Proof.
  intros H. pose proof (N.div_mod el 5000 ltac:(lia)). pose proof (N.mod_lt el 5000 ltac:(lia)).
  apply N.div_small. lia.
Qed.

(** C16: the slider shows the past: with an exit of [d] ms (the
    image's 800, the text's 500), the child [AnimatePresence] shows at
    time [t] is the slide the page had at [t - d]: it lags the state by
    the exit, and never shows a slide the page did not have. *)
Theorem slider_shows_past (d t0 t : N) :
  (0 < d < 5000)%N -> (t0 <= t)%N ->
  shown (slider_presence d t0 (t - t0)) = currentSlide (page t0 [Wait (t - d)]).
Proof.
  intros Hd Ht. rewrite page_wait_slide. unfold slide_at, slider_presence.
  replace (N.max t0 (t - d) - t0)%N with (t - t0 - d)%N by lia.
  remember (t - t0)%N as el eqn:Hel. clear Hel Ht.
  destruct (N.to_nat (el / 5000)) as [|m] eqn:Ek.
  - rewrite div_sub_zero by lia. cbn [slider_presence_ticks]. rewrite slider_key_mount.
    reflexivity.
  - rewrite slider_presence_ticks_S by lia. cbn [presence_step shown].
    destruct (N.leb_spec d (el mod 5000)).
    + rewrite (div_sub_ge el d), Ek by lia. reflexivity.
    + assert (Hk : (1 <= el / 5000)%N).
      { destruct (N.eq_dec (el / 5000) 0) as [E|E]; [rewrite E in Ek; discriminate | lia]. }
      rewrite (div_sub_lt el d) by lia. rewrite N2Nat.inj_sub, Ek.
      replace (S m - N.to_nat 1) with m by (change (N.to_nat 1) with 1; lia). reflexivity.
Qed.

Lemma slider_shows_past_witness :
  (0 < image_exit_ms < 5000)%N /\ (0 <= 10300)%N /\
  shown (slider_presence image_exit_ms 0 (10300 - 0)) =
    currentSlide (page 0 [Wait (10300 - image_exit_ms)]).
Proof.
  assert (Hd : (0 < image_exit_ms < 5000)%N) by (unfold image_exit_ms; lia).
  split; [exact Hd | split; [lia | exact (slider_shows_past _ 0 10300 Hd ltac:(lia))]].
Defined.

