(* ===== verification/Motion.v ===== *)
(** * framer-motion's scroll-linked values

    The cards of [App.tsx] call two hooks of framer-motion, a library that
    is not part of the repository; their arithmetic is modelled here from
    the library's documented behaviour (spec sections 4.1 and 4.2):
    - [useScroll({ target, offset })] gives a progress value in [[0, 1]]:
      the position between the two offsets, clamped ([scroll_progress]);
    - [useTransform(value, [x0, x1], [y0, y1])] maps a value through the
      two-point input range onto the output range: the input is clamped to
      the range, [progress] locates it in [[0, 1]] (1 for an empty range),
      [mix] interpolates linearly; a decreasing input range is reversed
      together with the output range first ([interpolate]).
    Numbers are exact rationals: JavaScript's doubles are not modelled
    (the page's constants 0.05 and 0.25 are not exact doubles).

    The lemmas: the result lies between the two outputs, it is an output
    at each end of the range, it is monotone in the input, and it respects
    [Qeq] ([Proper] instances), so that scroll progress can be rewritten
    with setoid rewriting. *)

From Stdlib Require Import QArith Qround Qminmax Lqa Psatz Morphisms.
From S2P Require Import Prelude.

Local Open Scope Q_scope.

(** [clamp(min, max, v)]: [v > max ? max : v < min ? min : v] *)
Definition clamp (lo hi v : Q) : Q :=
  if negb (Qle_bool v hi) then hi else if negb (Qle_bool lo v) then lo else v.

(** [progress(from, to, value)] *)
Definition progress (from to v : Q) : Q :=
  if Qeq_bool (to - from) 0 then 1 else (v - from) / (to - from).

(** [mix(from, to, p)] for numbers *)
Definition mix (from to p : Q) : Q := from + (to - from) * p.

(** [useTransform(value, [x0, x1], [y0, y1])] with the default clamping. *)
Definition interpolate (x0 x1 y0 y1 v : Q) : Q :=
  if Qle_bool x0 x1 then mix y0 y1 (progress x0 x1 (clamp x0 x1 v))
  else mix y1 y0 (progress x1 x0 (clamp x1 x0 v)).

(** [useScroll]'s progress for a scroll position [y] between the
    positions [start] and [stop] of the two offsets. *)
Definition scroll_progress (start stop y : Q) : Q :=
  clamp 0 1 (progress start stop y).

(** ** Clamping *)

Lemma clamp_between (lo hi v : Q) :
  lo <= hi -> lo <= clamp lo hi v <= hi.
Proof.
  intros H. unfold clamp.
  destruct (Qle_bool v hi) eqn:E1; simpl; [| lra].
  destruct (Qle_bool lo v) eqn:E2; simpl; [| lra].
  apply Qle_bool_iff in E1, E2. lra.
Qed.

Lemma clamp_in (lo hi v : Q) : lo <= v <= hi -> clamp lo hi v = v.
Proof.
  intros [H1 H2]. unfold clamp.
  apply Qle_bool_iff in H1, H2. now rewrite H1, H2.
Qed.

Lemma clamp_above (lo hi v : Q) : lo <= hi -> hi <= v -> clamp lo hi v == hi.
Proof.
  intros H1 H2. unfold clamp.
  destruct (Qle_bool v hi) eqn:E1; simpl; [| reflexivity].
  apply Qle_bool_iff in E1. assert (Hlo : Qle_bool lo v = true) by (apply Qle_bool_iff; lra).
  rewrite Hlo. simpl. lra.
Qed.

Lemma clamp_below (lo hi v : Q) : lo <= hi -> v <= lo -> clamp lo hi v == lo.
Proof.
  intros H1 H2. unfold clamp.
  assert (Hhi : Qle_bool v hi = true) by (apply Qle_bool_iff; lra). rewrite Hhi. simpl.
  destruct (Qle_bool lo v) eqn:E2; simpl; [apply Qle_bool_iff in E2; lra | reflexivity].
Qed.

(** ** Progress and mixing *)

Lemma progress_unit (x0 x1 v : Q) :
  x0 <= v <= x1 -> 0 <= progress x0 x1 v <= 1.
Proof.
  intros H. unfold progress. destruct (Qeq_bool (x1 - x0) 0) eqn:E; [lra |].
  apply Qeq_bool_neq in E. assert (Hd : 0 < x1 - x0) by lra.
  split.
  - apply Qle_shift_div_l; lra.
  - apply Qle_shift_div_r; lra.
Qed.

Lemma mix_between (y0 y1 p : Q) :
  0 <= p <= 1 -> Qmin y0 y1 <= mix y0 y1 p <= Qmax y0 y1.
Proof.
  intros Hp. unfold mix.
  destruct (Qlt_le_dec y0 y1).
  - rewrite Q.min_l, Q.max_r by lra. nra.
  - rewrite Q.min_r, Q.max_l by lra. nra.
Qed.

#[export] Instance clamp_Proper (lo hi : Q) : Proper (Qeq ==> Qeq) (clamp lo hi).
Proof.
  intros v v' Hv. unfold clamp.
  assert (E1 : Qle_bool v hi = Qle_bool v' hi) by (apply Qleb_comp; [exact Hv | reflexivity]).
  assert (E2 : Qle_bool lo v = Qle_bool lo v') by (apply Qleb_comp; [reflexivity | exact Hv]).
  rewrite E1, E2. destruct (Qle_bool v' hi), (Qle_bool lo v'); simpl; easy.
Qed.

#[export] Instance progress_Proper (x0 x1 : Q) : Proper (Qeq ==> Qeq) (progress x0 x1).
Proof. intros v v' Hv. unfold progress. destruct (Qeq_bool _ _); [reflexivity | now rewrite Hv]. Qed.

#[export] Instance mix_Proper (y0 y1 : Q) : Proper (Qeq ==> Qeq) (mix y0 y1).
Proof. intros p p' Hp. unfold mix. now rewrite Hp. Qed.

#[export] Instance interpolate_Proper (x0 x1 y0 y1 : Q) :
  Proper (Qeq ==> Qeq) (interpolate x0 x1 y0 y1).
Proof.
  intros v v' Hv. unfold interpolate. destruct (Qle_bool x0 x1); now rewrite Hv.
Qed.

Lemma clamp_mono (lo hi v v' : Q) :
  lo <= hi -> v <= v' -> clamp lo hi v <= clamp lo hi v'.
Proof.
  intros H Hv. unfold clamp.
  destruct (Qle_bool v hi) eqn:E1, (Qle_bool lo v) eqn:E2,
           (Qle_bool v' hi) eqn:E3, (Qle_bool lo v') eqn:E4; simpl;
    rewrite ?Qle_bool_iff in *;
    repeat match goal with H : Qle_bool _ _ = false |- _ =>
      apply Bool.not_true_iff_false in H; rewrite Qle_bool_iff in H end;
    lra.
Qed.

Lemma progress_mono (x0 x1 c c' : Q) :
  x0 < x1 -> c <= c' -> progress x0 x1 c <= progress x0 x1 c'.
Proof.
  intros H Hc. unfold progress.
  destruct (Qeq_bool (x1 - x0) 0) eqn:E; [apply Qeq_bool_iff in E; lra |].
  unfold Qdiv. apply Qmult_le_compat_r; [lra |]. apply Qinv_le_0_compat. lra.
Qed.

(** ** Interpolation *)

(** The result always lies between the two outputs. *)
Lemma interpolate_between (x0 x1 y0 y1 v : Q) :
  Qmin y0 y1 <= interpolate x0 x1 y0 y1 v <= Qmax y0 y1.
Proof.
  unfold interpolate. destruct (Qle_bool x0 x1) eqn:E.
  - apply Qle_bool_iff in E. apply mix_between, progress_unit, clamp_between, E.
  - apply Bool.not_true_iff_false in E. rewrite Qle_bool_iff in E.
    rewrite Q.min_comm, Q.max_comm.
    apply mix_between, progress_unit, clamp_between. lra.
Qed.

(** Before the range: the first output. *)
Lemma interpolate_before (x0 x1 y0 y1 v : Q) :
  x0 < x1 -> v <= x0 -> interpolate x0 x1 y0 y1 v == y0.
Proof.
  intros H Hv. unfold interpolate.
  assert (E : Qle_bool x0 x1 = true) by (apply Qle_bool_iff; lra). rewrite E.
  rewrite (clamp_below x0 x1 v) by lra. unfold progress, mix.
  destruct (Qeq_bool (x1 - x0) 0) eqn:E2; [apply Qeq_bool_iff in E2; lra |].
  field. intros Hz. lra.
Qed.

(** After the range: the last output. *)
Lemma interpolate_after (x0 x1 y0 y1 v : Q) :
  x0 < x1 -> x1 <= v -> interpolate x0 x1 y0 y1 v == y1.
Proof.
  intros H Hv. unfold interpolate.
  assert (E : Qle_bool x0 x1 = true) by (apply Qle_bool_iff; lra). rewrite E.
  rewrite (clamp_above x0 x1 v) by lra. unfold progress, mix.
  destruct (Qeq_bool (x1 - x0) 0) eqn:E2; [apply Qeq_bool_iff in E2; lra |].
  field. intros Hz. lra.
Qed.

(** A decreasing output goes down as the input goes up. *)
Lemma interpolate_antitone (x0 x1 y0 y1 v v' : Q) :
  x0 < x1 -> y1 <= y0 -> v <= v' ->
  interpolate x0 x1 y0 y1 v' <= interpolate x0 x1 y0 y1 v.
Proof.
  intros H Hy Hv. unfold interpolate.
  assert (E : Qle_bool x0 x1 = true) by (apply Qle_bool_iff; lra). rewrite E.
  pose proof (progress_mono x0 x1 _ _ H (clamp_mono x0 x1 v v' ltac:(lra) Hv)) as Hp.
  unfold mix. nra.
Qed.

(** An input range that is a single point or reversed, with the value at
    or below its lower end, gives the output of that end. *)
Lemma interpolate_degenerate (x0 x1 y0 y1 v : Q) :
  x1 <= x0 -> v <= x1 -> interpolate x0 x1 y0 y1 v == y1.
Proof.
  intros H Hv. unfold interpolate.
  destruct (Qle_bool x0 x1) eqn:E.
  - apply Qle_bool_iff in E. unfold progress, mix.
    assert (Hz : Qeq_bool (x1 - x0) 0 = true) by (apply Qeq_bool_iff; lra).
    rewrite Hz. lra.
  - apply Bool.not_true_iff_false in E. rewrite Qle_bool_iff in E.
    rewrite (clamp_below x1 x0 v) by lra. unfold progress, mix.
    destruct (Qeq_bool (x0 - x1) 0) eqn:E2; [apply Qeq_bool_iff in E2; lra |].
    field. intros Hz. lra.
Qed.
