(* ===== verification/CardStack.v ===== *)
(** * The stacking cards (App.tsx lines 91-147 and 283-296)

    [App] maps [features] to [Card]s (lines 291-294): card [i] of
    [features.length] cards gets [targetScale = 1 - (length - i) * 0.05]
    and [range = [i * 0.25, 1]], and the section's scroll progress.
    [Card] (lines 91-147) derives from them:
    - [scale = useTransform(progress, range, [1, targetScale])] (line 95);
    - [imageY = useTransform(scrollYProgress, [0, 1], ["-10%", "10%"])]
      (line 96), in percent;
    - its sticky offset [top: 60 + i * 35] px (line 120);
    - the entrance animation ([initial]/[whileInView], lines 101-106) with
      [viewport={{ once: true, amount: 0.2 }}] (line 119): it starts the
      first time 20% of the card is visible and never again
      ([entrance_step], a two-state machine);
    - the animation of [y] ([card_y_animation]): the bob of [animate]
      (keyframes [0, -20, 0], 4 s, repeated, delayed by [i * 0.4] s, lines
      108-118) until the entrance starts, then [whileInView]'s spring to 0
      for good: the bob is not perpetual.
    The scroll and transform hooks are [Motion]'s models of framer-motion. *)

From Stdlib Require Import ZArith QArith Qround Qminmax Lqa Psatz List Bool.
From S2P Require Import Prelude JsString Content Motion.
Import ListNotations.

Local Open Scope Q_scope.

(** line 292: [1 - ((features.length - i) * 0.05)] *)
Definition targetScale (n i : nat) : Q :=
  1 - inject_Z (Z.of_nat n - Z.of_nat i) * (1 # 20).

(** line 293: [range={[i * 0.25, 1]}] *)
Definition card_range (i : nat) : Q * Q := (inject_Z (Z.of_nat i) * (1 # 4), 1).

(** line 95: [useTransform(progress, range, [1, targetScale])] *)
Definition card_scale (n i : nat) (p : Q) : Q :=
  interpolate (fst (card_range i)) (snd (card_range i)) 1 (targetScale n i) p.

(** line 96: [useTransform(scrollYProgress, [0, 1], ["-10%", "10%"])] *)
Definition image_y (p : Q) : Q := interpolate 0 1 (-10) 10 p.

(** line 120: [top: `${60 + (i * 35)}px`] *)
Definition card_top (i : nat) : Z := 60 + Z.of_nat i * 35.

(** lines 291-294: the props each card receives *)
Record CardProps := mkCardProps {
  cp_i : nat;
  cp_feature : Feature.t;
  cp_range : Q * Q;
  cp_targetScale : Q
}.

Definition cards : list CardProps :=
  map (fun '(i, f) => mkCardProps i f (card_range i) (targetScale (length features) i))
    (combine (seq 0 (length features)) features).

(** ** The entrance animation (lines 101-106, 119) *)

Inductive Entrance := NotShown | Shown.

(** [amount: 0.2] *)
Definition entrance_amount : Q := 1 # 5.

(** A visibility report [visible] (the fraction of the card in the
    viewport): the animation starts when the card is not yet shown and
    enough of it is visible; [once: true] keeps it shown. The boolean says
    whether the entrance animation starts. *)
Definition entrance_step (st : Entrance) (visible : Q) : Entrance * bool :=
  match st with
  | Shown => (Shown, false)
  | NotShown =>
      if Qle_bool entrance_amount visible then (Shown, true) else (NotShown, false)
  end.

(** A sequence of visibility reports; the number of entrance animations. *)
Fixpoint entrance_run (st : Entrance) (vs : list Q) : Entrance * nat :=
  match vs with
  | [] => (st, 0%nat)
  | v :: vs' =>
      let (st1, fired) := entrance_step st v in
      let (st2, n) := entrance_run st1 vs' in
      (st2, ((if fired then 1 else 0) + n)%nat)
  end.

(** ** What animates [y] (lines 101-119) *)

(** The animation framer-motion runs on the card's [y]: a keyframe
    animation or a spring, with the parameters the code gives. *)
Inductive YAnimation :=
  | YKeyframes (keyframes : list Z) (duration delay : Q)  (** repeated forever *)
  | YSpring (target : Z) (stiffness damping mass : Z).

(** line 116: [delay: i * 0.4] seconds *)
Definition bob_delay (i : nat) : Q := inject_Z (Z.of_nat i) * (2 # 5).

(** Both [animate] (lines 108-118: [y: [0, -20, 0]], 4 s, repeated
    forever, delayed by [i * 0.4] s) and [whileInView] (lines 102-107: [y:
    0] with a spring) set [y].  framer-motion resolves a value from the
    highest-priority active animation state, and [whileInView] outranks
    [animate]; with [viewport={{ once: true }}] (line 119) the in-view
    state, once entered, is never left. *)
Definition card_y_animation (i : nat) (st : Entrance) : YAnimation :=
  match st with
  | Shown => YSpring 0 35 20 2
  | NotShown => YKeyframes [0; -20; 0]%Z 4 (bob_delay i)
  end.

(** ** Lemmas *)

Lemma inject_Z_lt (a b : Z) : (a < b)%Z -> inject_Z a < inject_Z b.
Proof. now rewrite Zlt_Qlt. Qed.

Lemma inject_Z_le (a b : Z) : (a <= b)%Z -> inject_Z a <= inject_Z b.
Proof. now rewrite Zle_Qle. Qed.

Lemma targetScale_lt_1 (n i : nat) : (i < n)%nat -> targetScale n i < 1.
Proof.
  intros H. unfold targetScale.
  assert (Hz : 0 < inject_Z (Z.of_nat n - Z.of_nat i)) by (apply (inject_Z_lt 0); lia).
  lra.
Qed.

Lemma card_range_lo_lt_1 (i : nat) : (i < 4)%nat -> fst (card_range i) < 1.
Proof.
  intros H. simpl. assert (Hz : inject_Z (Z.of_nat i) <= 3) by (apply (inject_Z_le _ 3); lia).
  lra.
Qed.

Lemma entrance_run_shown (vs : list Q) : entrance_run Shown vs = (Shown, 0%nat).
Proof. induction vs as [|v vs IH]; simpl; [reflexivity | now rewrite IH]. Qed.

(** The entrance state after visibility reports: shown once some report
    reached the threshold. *)
Lemma entrance_run_state (vs : list Q) :
  fst (entrance_run NotShown vs) =
  if existsb (Qle_bool entrance_amount) vs then Shown else NotShown.
Proof.
  induction vs as [|v vs IH]; [reflexivity |]. simpl.
  destruct (Qle_bool entrance_amount v); simpl.
  - now rewrite entrance_run_shown.
  - destruct (entrance_run NotShown vs) as [st n]. exact IH.
Qed.

(** The scale of one of the first four cards never grows with the
    progress. *)
Lemma card_scale_anti (n i : nat) (p p' : Q) :
  (i < 4)%nat -> (i < n)%nat -> p <= p' -> card_scale n i p' <= card_scale n i p.
Proof.
  intros H1 H2 Hp. unfold card_scale.
  apply interpolate_antitone; [exact (card_range_lo_lt_1 i H1) | | exact Hp].
  pose proof (targetScale_lt_1 n i H2). simpl. lra.
Qed.

(** ** Properties *)

(** C22: the last card's target scale is [1 - 1 * 0.05 = 0.95],
    not 1: every card, the last included, shrinks when the section has
    been scrolled through (spec section 8 says it equals 1.0). *)
Theorem target_scale_last (n : nat) :
  (1 <= n)%nat -> targetScale n (n - 1) == 19 # 20.
Proof.
  intros H. unfold targetScale. rewrite Nat2Z.inj_sub by lia.
  replace (Z.of_nat n - (Z.of_nat n - Z.of_nat 1))%Z with 1%Z by lia. reflexivity.
Qed.

Lemma target_scale_last_witness : (1 <= 4)%nat /\ targetScale 4 (4 - 1) == 19 # 20.
Proof. split; [lia | apply target_scale_last; lia]. Defined.

(** Target scales grow with the card index: a card
    further down the stack shrinks less. *)
Theorem target_scale_increasing (n i j : nat) :
  (i < j)%nat -> targetScale n i < targetScale n j.
Proof.
  intros H. unfold targetScale.
  assert (Hz : inject_Z (Z.of_nat n - Z.of_nat j) < inject_Z (Z.of_nat n - Z.of_nat i))
    by (apply inject_Z_lt; lia).
  lra.
Qed.

(** C19: whatever the scroll progress, a card's scale lies
    between its target scale and 1. *)
Theorem card_scale_bounds (n i : nat) (p : Q) :
  (i < n)%nat -> targetScale n i <= card_scale n i p <= 1.
Proof.
  intros H. pose proof (targetScale_lt_1 n i H) as Ht.
  pose proof (interpolate_between (fst (card_range i)) (snd (card_range i))
                1 (targetScale n i) p) as Hb.
  rewrite Q.min_r, Q.max_l in Hb by lra. exact Hb.
Qed.

Lemma card_scale_bounds_witness :
  (2 < 4)%nat /\ targetScale 4 2 <= card_scale 4 2 (3 # 5) <= 1.
Proof. split; [lia | apply card_scale_bounds; lia]. Defined.

(** C21: for the first four cards (the page has four), the
    scale is 1 until the progress reaches the start [i * 0.25] of the
    card's range and the target scale once the progress reaches 1. *)
Theorem card_scale_ends (n i : nat) (p : Q) :
  (i < 4)%nat ->
  (p <= inject_Z (Z.of_nat i) * (1 # 4) -> card_scale n i p == 1) /\
  (1 <= p -> card_scale n i p == targetScale n i).
Proof.
  intros H. pose proof (card_range_lo_lt_1 i H) as Hlo. unfold card_scale. split.
  - intros Hp. apply interpolate_before; [exact Hlo | exact Hp].
  - intros Hp. apply interpolate_after; [exact Hlo | exact Hp].
Qed.

Lemma card_scale_ends_witness :
  (1 < 4)%nat /\
  ((1 # 8 <= inject_Z (Z.of_nat 1) * (1 # 4) -> card_scale 4 1 (1 # 8) == 1) /\
   (1 <= 1 # 8 -> card_scale 4 1 (1 # 8) == targetScale 4 1)).
Proof. split; [lia | apply card_scale_ends; lia]. Defined.

(** C20: as the scroll progress grows, the scale of each of
    the first four cards never grows: the stack only sinks when scrolling
    down. *)
Theorem card_scale_antitone (n i : nat) (p p' : Q) :
  (i < 4)%nat -> (i < n)%nat -> p <= p' -> card_scale n i p' <= card_scale n i p.
Proof.
  intros H1 H2 Hp. exact (card_scale_anti n i p p' H1 H2 Hp).
Qed.

Lemma card_scale_antitone_witness :
  (0 < 4)%nat /\ (0 < 4)%nat /\ 1 # 4 <= 1 # 2 /\
  card_scale 4 0 (1 # 2) <= card_scale 4 0 (1 # 4).
Proof.
  split; [lia | split; [lia | split; [unfold Qle; simpl; lia |]]].
  apply card_scale_antitone; [lia | lia | unfold Qle; simpl; lia].
Defined.

(** C23: from the fifth card on ([i >= 4]) the range
    [[i * 0.25, 1]] is a point or reversed, so for every scroll progress
    (at most 1) the card sits at its target scale and never animates. *)
Theorem late_cards_at_target (n i : nat) (p : Q) :
  (4 <= i)%nat -> p <= 1 -> card_scale n i p == targetScale n i.
Proof.
  intros H Hp. unfold card_scale. apply interpolate_degenerate; [| exact Hp].
  simpl. assert (Hz : 4 <= inject_Z (Z.of_nat i)) by (apply (inject_Z_le 4); lia). lra.
Qed.

Lemma late_cards_at_target_witness :
  (4 <= 5)%nat /\ 1 # 2 <= 1 /\ card_scale 6 5 (1 # 2) == targetScale 6 5.
Proof.
  split; [lia | split; [unfold Qle; simpl; lia |]].
  apply late_cards_at_target; [lia | unfold Qle; simpl; lia].
Defined.

(** C24: the first card's target scale is positive exactly when
    there are fewer than 20 cards; with 20 or more the formula sends it to
    zero or below (a mirrored card). *)
Theorem first_card_collapses (n : nat) : targetScale n 0 <= 0 <-> (20 <= n)%nat.
Proof.
  unfold targetScale. rewrite Z.sub_0_r. split; intros H.
  - assert (Hz : inject_Z 20 <= inject_Z (Z.of_nat n)) by (unfold inject_Z at 1; lra).
    rewrite <- Zle_Qle in Hz. lia.
  - assert (Hz : 20 <= inject_Z (Z.of_nat n)) by (apply (inject_Z_le 20); lia). lra.
Qed.

(** C25: from the initial state, over any sequence of
    visibility reports, the entrance animation runs once if some report
    shows at least 20% of the card and never otherwise. *)
Theorem entrance_fires_once (vs : list Q) :
  snd (entrance_run NotShown vs) =
  (if existsb (Qle_bool entrance_amount) vs then 1 else 0)%nat.
Proof.
  induction vs as [|v vs IH]; [reflexivity |]. simpl.
  destruct (Qle_bool entrance_amount v) eqn:E; simpl.
  - now rewrite entrance_run_shown.
  - destruct (entrance_run NotShown vs) as [st n]. exact IH.
Qed.

(** C26: the card's bob runs only until the card enters the
    view: over any visibility reports, [y] is animated by [animate]'s
    repeated keyframes [0, -20, 0] while no report has shown 20% of the
    card, and by [whileInView]'s spring to 0 from the first one that has;
    after that, whatever the later reports, it stays with the spring. *)
Theorem bob_stops_in_view (i : nat) (vs vs' : list Q) :
  card_y_animation i (fst (entrance_run NotShown vs)) =
    (if existsb (Qle_bool entrance_amount) vs then YSpring 0 35 20 2
     else YKeyframes [0; -20; 0]%Z 4 (bob_delay i)) /\
  (existsb (Qle_bool entrance_amount) vs = true ->
   card_y_animation i (fst (entrance_run NotShown (vs ++ vs'))) = YSpring 0 35 20 2).
Proof.
  rewrite !entrance_run_state. split; [now destruct (existsb _ vs) |].
  intros H. now rewrite existsb_app, H.
Qed.

Lemma bob_stops_in_view_witness :
  existsb (Qle_bool entrance_amount) [1 # 10; 1 # 2] = true /\
  card_y_animation 2 (fst (entrance_run NotShown ([1 # 10; 1 # 2] ++ [0]))) = YSpring 0 35 20 2.
Proof.
  assert (H : existsb (Qle_bool entrance_amount) [1 # 10; 1 # 2] = true) by reflexivity.
  split; [exact H | exact (proj2 (bob_stops_in_view 2 _ [0] ) H)].
Defined.
