(* ===== verification/Scroll.v ===== *)
(** * Scroll progress: [useScroll]'s offsets (App.tsx lines 93 and 166)

    framer-motion's [useScroll({ target, offset: [a, b] })] gives the
    progress of the window's scroll position [y] between the two positions
    at which the offsets are met.  An offset ["<target edge> <viewport
    edge>"] is met when that edge of the target lies on that edge of the
    viewport: for a target whose top is at [top] in the document, of
    height [height], in a viewport of height [vh], ["start end"] is met at
    [y = top - vh], ["start start"] at [y = top] and ["end end"] at
    [y = top + height - vh].  The progress is clamped to [[0, 1]]
    ([Motion.scroll_progress]).

    The page uses two of them:
    - the menu container ([App], line 166), [['start start', 'end end']]:
      the stack's progress, from the container's top reaching the top of
      the viewport to its bottom reaching the bottom;
    - each card ([Card], line 93), [['start end', 'start start']]: from the
      card's top entering at the bottom of the viewport to reaching its
      top, the input of the image's parallax.

    Composed with [CardStack], the window's scroll position determines
    every card's scale: scrolling down never makes a card bigger. *)

From Stdlib Require Import QArith Qminmax Lqa Psatz.
From S2P Require Import Prelude Motion CardStack.

Local Open Scope Q_scope.

(** The layout a scroll position is read against. *)
Record Layout := mkLayout {
  vh : Q;      (** the viewport's height *)
  top : Q;     (** the target's top, in document coordinates *)
  height : Q   (** the target's height *)
}.

Inductive Edge := EStart | EEnd.

(** ["<target edge> <viewport edge>"] *)
Definition Offset : Type := Edge * Edge.

(** line 166: [offset: ['start start', 'end end']] *)
Definition container_offsets : Offset * Offset := ((EStart, EStart), (EEnd, EEnd)).

(** line 93: [offset: ['start end', 'start start']] *)
Definition card_offsets : Offset * Offset := ((EStart, EEnd), (EStart, EStart)).

Definition target_edge (L : Layout) (e : Edge) : Q :=
  match e with EStart => top L | EEnd => top L + height L end.

Definition viewport_edge (L : Layout) (e : Edge) : Q :=
  match e with EStart => 0 | EEnd => vh L end.

(** The scroll position at which an offset is met. *)
Definition offset_at (L : Layout) (o : Offset) : Q :=
  target_edge L (fst o) - viewport_edge L (snd o).

(** [scrollYProgress] at scroll position [y]. *)
Definition use_scroll (L : Layout) (offs : Offset * Offset) (y : Q) : Q :=
  scroll_progress (offset_at L (fst offs)) (offset_at L (snd offs)) y.

(** The scale of card [i] of [n] when the window is scrolled to [y] and
    the menu container has the layout [L]. *)
Definition card_scale_at (L : Layout) (n i : nat) (y : Q) : Q :=
  card_scale n i (use_scroll L container_offsets y).

(** The image offset of a card with layout [L] at scroll position [y]. *)
Definition image_y_at (L : Layout) (y : Q) : Q := image_y (use_scroll L card_offsets y).

(** ** Lemmas *)

(** The scroll progress grows with the scroll position when the second
    offset is met after the first. *)
Lemma scroll_progress_mono (a b y y' : Q) :
  a < b -> y <= y' -> scroll_progress a b y <= scroll_progress a b y'.
Proof.
  intros Hab Hy. unfold scroll_progress.
  apply clamp_mono; [lra | exact (progress_mono a b y y' Hab Hy)].
Qed.

(** Before the first offset the progress is 0, after the second it is 1. *)
Lemma scroll_progress_ends (a b y : Q) :
  a < b -> (y <= a -> scroll_progress a b y == 0) /\ (b <= y -> scroll_progress a b y == 1).
Proof.
  intros Hab. unfold scroll_progress, progress.
  destruct (Qeq_bool (b - a) 0) eqn:E; [apply Qeq_bool_iff in E; lra |].
  split; intros Hy.
  - apply clamp_below; [lra |]. apply Qle_shift_div_r; lra.
  - apply clamp_above; [lra |]. apply Qle_shift_div_l; lra.
Qed.

Lemma container_offsets_at (L : Layout) :
  offset_at L (fst container_offsets) == top L /\
  offset_at L (snd container_offsets) == top L + height L - vh L.
Proof. unfold offset_at, container_offsets. cbn [fst snd target_edge viewport_edge]. split; ring. Qed.

(** ** Properties *)

(** C18: the menu container's progress (line 166) is clamped to
    [[0, 1]]: it is 0 until the container's top reaches the top of the
    viewport and 1 once its bottom reaches the bottom of the viewport,
    for a container taller than the viewport. *)
Theorem container_progress_ends (L : Layout) (y : Q) :
  vh L < height L ->
  (y <= top L -> use_scroll L container_offsets y == 0) /\
  (top L + height L - vh L <= y -> use_scroll L container_offsets y == 1) /\
  0 <= use_scroll L container_offsets y <= 1.
Proof.
  intros Hh. destruct (container_offsets_at L) as [Ha Hb]. unfold use_scroll.
  destruct (scroll_progress_ends (offset_at L (fst container_offsets))
              (offset_at L (snd container_offsets)) y ltac:(lra)) as [H0 H1].
  split; [intros Hy; apply H0; lra | split; [intros Hy; apply H1; lra |]].
  apply clamp_between. lra.
Qed.

Lemma container_progress_ends_witness :
  vh (mkLayout 800 1000 4000) < height (mkLayout 800 1000 4000) /\
  (2500 <= top (mkLayout 800 1000 4000) ->
     use_scroll (mkLayout 800 1000 4000) container_offsets 2500 == 0) /\
  (top (mkLayout 800 1000 4000) + height (mkLayout 800 1000 4000) -
     vh (mkLayout 800 1000 4000) <= 2500 ->
     use_scroll (mkLayout 800 1000 4000) container_offsets 2500 == 1) /\
  0 <= use_scroll (mkLayout 800 1000 4000) container_offsets 2500 <= 1.
Proof.
  assert (H : vh (mkLayout 800 1000 4000) < height (mkLayout 800 1000 4000))
    by (cbn; lra).
  split; [exact H | exact (container_progress_ends _ 2500 H)].
Defined.

(** C17: scrolling down never enlarges a card: for each of the
    first four cards, the scale the window's scroll position gives it
    (through the container's progress and the card's range) does not
    grow as the position grows. *)
Theorem scrolling_shrinks_cards (L : Layout) (n i : nat) (y y' : Q) :
  vh L < height L -> (i < 4)%nat -> (i < n)%nat -> y <= y' ->
  card_scale_at L n i y' <= card_scale_at L n i y.
Proof.
  intros Hh H4 Hn Hy. destruct (container_offsets_at L) as [Ha Hb].
  apply card_scale_anti; [exact H4 | exact Hn |].
  apply scroll_progress_mono; [lra | exact Hy].
Qed.

Lemma scrolling_shrinks_cards_witness :
  vh (mkLayout 800 1000 4000) < height (mkLayout 800 1000 4000) /\ (1 < 4)%nat /\
  (1 < 4)%nat /\ 1500 <= 3000 /\
  card_scale_at (mkLayout 800 1000 4000) 4 1 3000 <= card_scale_at (mkLayout 800 1000 4000) 4 1 1500.
Proof.
  assert (H : vh (mkLayout 800 1000 4000) < height (mkLayout 800 1000 4000)) by (cbn; lra).
  assert (Hy : 1500 <= 3000) by lra.
  split; [exact H | split; [lia | split; [lia | split; [exact Hy |]]]].
  exact (scrolling_shrinks_cards _ 4 1 1500 3000 H ltac:(lia) ltac:(lia) Hy).
Defined.
