(* ===== verification/Navbar.v ===== *)
(** * The navbar anchors (App.tsx lines 66-89)

    Each navbar item links to
    [`#${item.toLowerCase().normalize("NFD").replace(/[̀-ͯ]/g, "")}`]
    (line 75): lower case, canonical decomposition, then every combining
    diacritical mark (U+0300 to U+036F) removed.  The three string
    operations are ECMAScript/Unicode built-ins; they are modelled on the
    Latin-1 range (U+0000 to U+00FF), which holds every character of the
    page's items: [lower_unit] maps A-Z and the Latin-1 capitals to their
    small letters, [nfd_unit] decomposes the Latin-1 precomposed letters
    into a base letter and a combining mark, and other units are left as
    they are.  [Page.navbar] renders the links with [anchor]; that each
    resolves to a section id of the page is [Page.links_resolve]. *)

From Stdlib Require Import List NArith Lia Bool String.
From S2P Require Import Prelude JsString.
Import ListNotations.

Local Open Scope N_scope.

(** line 72: [['Menú', 'Historia', 'Ubicación']] *)
Definition nav_items : list jsstr :=
  [utf16 "Menú"; utf16 "Historia"; utf16 "Ubicación"].

(** [toLowerCase] on one Latin-1 code unit *)
Definition lower_unit (c : N) : N :=
  if (65 <=? c) && (c <=? 90) then c + 32
  else if (192 <=? c) && (c <=? 222) && negb (c =? 215) then c + 32
  else c.

Definition toLowerCase (s : jsstr) : jsstr := map lower_unit s.

(** The canonical decomposition of the Latin-1 letters U+00C0 to U+00FF:
    by position in the block of 32, the base letter (as an offset from
    'A', small letters 32 further) and the combining mark. *)
Definition latin1_decomposition (off : N) : option (N * N) :=
  match off with
  | 0 => Some (0, 768) | 1 => Some (0, 769) | 2 => Some (0, 770)
  | 3 => Some (0, 771) | 4 => Some (0, 776) | 5 => Some (0, 778)
  | 7 => Some (2, 807)
  | 8 => Some (4, 768) | 9 => Some (4, 769) | 10 => Some (4, 770) | 11 => Some (4, 776)
  | 12 => Some (8, 768) | 13 => Some (8, 769) | 14 => Some (8, 770) | 15 => Some (8, 776)
  | 17 => Some (13, 771)
  | 18 => Some (14, 768) | 19 => Some (14, 769) | 20 => Some (14, 770)
  | 21 => Some (14, 771) | 22 => Some (14, 776)
  | 25 => Some (20, 768) | 26 => Some (20, 769) | 27 => Some (20, 770) | 28 => Some (20, 776)
  | 29 => Some (24, 769)
  | _ => None
  end.

(** [normalize("NFD")] on one Latin-1 code unit ([ÿ], U+00FF, is the one
    letter at position 31 with a decomposition) *)
Definition nfd_unit (c : N) : list N :=
  if (192 <=? c) && (c <=? 255) then
    let base := if c <? 224 then 65 else 97 in
    if c =? 255 then [121; 776]
    else match latin1_decomposition (c - (if c <? 224 then 192 else 224)) with
         | Some (b, mark) => [base + b; mark]
         | None => [c]
         end
  else [c].

Definition normalize_NFD (s : jsstr) : jsstr := flat_map nfd_unit s.

(** [/[̀-ͯ]/] *)
Definition is_combining (c : N) : bool := (768 <=? c) && (c <=? 879).

(** [.replace(/[̀-ͯ]/g, "")] *)
Definition strip_marks (s : jsstr) : jsstr := filter (fun c => negb (is_combining c)) s.

(** line 75: the anchor of an item, without its [#] *)
Definition anchor (item : jsstr) : jsstr := strip_marks (normalize_NFD (toLowerCase item)).
