(* ===== verification/Dom.v ===== *)
(** * React elements as a tree

    What a component returns is a tree of React elements: host elements
    ([<div>], [<a>], [<motion.div>] ...) with their props and children,
    composite elements ([<Card/>], [<Navbar/>], icons, [AnimatePresence])
    standing for what they render, and text.  A [key] is kept apart from
    the props, as React does; React compares keys as strings, so the
    number [0] and the string ["0"] are the same key ([key_string]).

    Props are kept by name when the page's behaviour reads them (ids,
    links, keys, form attributes, the scale and offsets the cards are
    styled with, the indicator classes); static class names, inline
    styles without logic and motion props modelled elsewhere are left out.

    The traversals ([nodes], [ids], [hrefs], [keys_ok]) are what the
    page's properties are stated with: the ids of the document, its
    fragment links, and the uniqueness of keys among siblings that React's
    reconciliation needs. *)

From Stdlib Require Import List NArith Arith Bool String Lia QArith.
From S2P Require Import Prelude JsString.
Import ListNotations.

(** ** Elements *)

#[local] Set Warnings "-register-all".

Inductive AttrVal :=
  | AStr (s : jsstr)
  | ABool (b : bool)
  | ANum (q : Q)
  | AHandler (name : string).

Inductive Key := KStr (s : jsstr) | KNum (n : nat).

Inductive VNode :=
  | Text (s : jsstr)
  | Elem (tag : string) (key : option Key) (attrs : list (string * AttrVal))
         (children : list VNode)
  | Comp (name : string) (key : option Key) (rendered : list VNode).

(** The induction principle with a hypothesis for every child. *)
Section VNodeInd.
Variable P : VNode -> Prop.
Hypothesis P_text : forall s, P (Text s).
Hypothesis P_elem : forall tag k a ch, Forall P ch -> P (Elem tag k a ch).
Hypothesis P_comp : forall n k ch, Forall P ch -> P (Comp n k ch).

Fixpoint vnode_ind2 (v : VNode) : P v :=
  match v with
  | Text s => P_text s
  | Elem tag k a ch =>
      P_elem tag k a ch
        ((fix go (l : list VNode) : Forall P l :=
            match l with
            | [] => Forall_nil P
            | x :: r => Forall_cons x (vnode_ind2 x) (go r)
            end) ch)
  | Comp n k ch =>
      P_comp n k ch
        ((fix go (l : list VNode) : Forall P l :=
            match l with
            | [] => Forall_nil P
            | x :: r => Forall_cons x (vnode_ind2 x) (go r)
            end) ch)
  end.
End VNodeInd.

(** [txt "..."]: JSX text, as UTF-16 code units. *)
Definition txt (s : string) : VNode := Text (utf16 s).

(** A lucide-react icon: a component rendering an [<svg>]. *)
Definition icon (name : string) : VNode := Comp name None [Elem "svg" None [] []].

(** [Array.prototype.map] with the index as second argument. *)
Fixpoint mapi_from {A B} (f : nat -> A -> B) (i : nat) (l : list A) : list B :=
  match l with
  | [] => []
  | x :: r => f i x :: mapi_from f (S i) r
  end.

Definition mapi {A B} (f : nat -> A -> B) (l : list A) : list B := mapi_from f 0 l.

(** [String(n)] for a natural number: its decimal digits. *)
Fixpoint decimal_aux (fuel n : nat) (acc : jsstr) : jsstr :=
  match fuel with
  | O => acc
  | S f =>
      let acc' := (48 + N.of_nat (n mod 10))%N :: acc in
      if n <? 10 then acc' else decimal_aux f (n / 10) acc'
  end.

Definition decimal (n : nat) : jsstr := decimal_aux (S n) n [].

Definition key_string (k : Key) : jsstr :=
  match k with KStr s => s | KNum n => decimal n end.

(** ** Traversals *)

Definition children (v : VNode) : list VNode :=
  match v with
  | Text _ => []
  | Elem _ _ _ ch | Comp _ _ ch => ch
  end.

Definition key_of (v : VNode) : option Key :=
  match v with
  | Text _ => None
  | Elem _ k _ _ | Comp _ k _ => k
  end.

(** Every element of the tree, in document order. *)
Fixpoint nodes (v : VNode) : list VNode :=
  v :: match v with
       | Text _ => []
       | Elem _ _ _ ch | Comp _ _ ch => flat_map nodes ch
       end.

(** The value of a host element's prop. *)
Definition attr (name : string) (v : VNode) : option AttrVal :=
  match v with
  | Elem _ _ a _ =>
      match find (fun p => String.eqb (fst p) name) a with
      | Some (_, x) => Some x
      | None => None
      end
  | _ => None
  end.

Definition str_attr (name : string) (v : VNode) : list jsstr :=
  match attr name v with Some (AStr s) => [s] | _ => [] end.

(** The ids of the document and the targets of its links. *)
Definition ids (v : VNode) : list jsstr := flat_map (str_attr "id") (nodes v).
Definition hrefs (v : VNode) : list jsstr := flat_map (str_attr "href") (nodes v).

Definition tag_is (t : string) (v : VNode) : bool :=
  match v with Elem t' _ _ _ => String.eqb t' t | _ => false end.

(** The text a node shows. *)
Fixpoint text_content (v : VNode) : jsstr :=
  match v with
  | Text s => s
  | Elem _ _ _ ch | Comp _ _ ch => flat_map text_content ch
  end.

(** ** Keys *)

Fixpoint nodupb (l : list jsstr) : bool :=
  match l with
  | [] => true
  | x :: r => negb (existsb (jsstr_eqb x) r) && nodupb r
  end.

(** The keys given to the children of a node. *)
Definition child_keys (v : VNode) : list jsstr :=
  flat_map (fun c => match key_of c with Some k => [key_string k] | None => [] end)
    (children v).

(** Siblings never share a key, anywhere in the tree. *)
Definition keys_ok (v : VNode) : bool := forallb (fun n => nodupb (child_keys n)) (nodes v).

(** ** Lemmas *)

Lemma nodupb_NoDup (l : list jsstr) : nodupb l = true -> NoDup l.
Proof.
  induction l as [|x r IH]; simpl; intros H; [constructor |].
  apply andb_true_iff in H as [Hx Hr]. constructor; [| auto].
  intros Hin. apply negb_true_iff in Hx.
  assert (Hex : existsb (jsstr_eqb x) r = true)
    by (apply existsb_exists; exists x; split; [exact Hin | now apply jsstr_eqb_spec]).
  congruence.
Qed.

(** The keys of every node's children are distinct. *)
Lemma keys_ok_NoDup (v n : VNode) : keys_ok v = true -> In n (nodes v) -> NoDup (child_keys n).
Proof.
  unfold keys_ok. intros H Hn. rewrite forallb_forall in H. now apply nodupb_NoDup, H.
Qed.
