(* ===== verification/Page.v ===== *)
(** * What the page renders (App.tsx lines 66-161 and 187-400)

    The components' JSX, as React element trees ([Dom.VNode]): [navbar]
    ([Navbar], 66-89), [card] ([Card], 91-147), [map_card] ([MapCard],
    149-161) and the sections of [App]'s return: [hero] (195-215), the
    marquee (218-231), [history_section] (234-281), [menu_section]
    (284-296), [grid_section] (299-327), [location_section] with
    [form_column] (330-383) and [footer] (385-398), put together by
    [render_app] (187-400).

    JSX text follows JSX's whitespace rule: a text run is split in lines,
    lines made only of white space are dropped, the others lose the
    leading white space after a line break and the trailing white space
    before one, and are joined by a space.  [{/* ... */}] renders nothing.

    Rendering reads the state ([formStatus], [currentSlide]) and two
    scroll positions: the menu container's progress [p] (every card's
    scale) and each card's own progress [cq i] (its image offset).
    [historySlides[currentSlide].img] (line 248) throws a [TypeError] when
    the index is out of range: [render_app] is [None] then. *)

From Stdlib Require Import List NArith Arith Bool String Lia QArith Qminmax Lqa.
From S2P Require Import Prelude JsString Content Dom Motion CardStack Navbar.
From S2P Require Import Runtime Slider ContactForm.
Import ListNotations.

Local Open Scope string_scope.

(** A prop with a string value. *)
Definition sattr (name value : string) : string * AttrVal := (name, AStr (utf16 value)).

(** ** The navbar (lines 66-89) *)

Definition nav_link (item : jsstr) : VNode :=
  Elem "a" (Some (KStr item)) [("href", AStr (utf16 "#" ++ anchor item)%list)]
    [Text item; Elem "span" None [] []].

Definition navbar : VNode :=
  Elem "nav" None [] [
    Elem "div" None [] [txt "DULCE"; Elem "span" None [] [txt "."]];
    Elem "div" None [] (map nav_link nav_items);
    Elem "div" None [] [Elem "button" None [] [icon "ShoppingBag"; txt " Pedir"]]].

(** ** A card of the stack (lines 91-147) *)

Definition card (p cq : Q) (c : CardProps) : VNode :=
  let f := cp_feature c in
  let scale := interpolate (fst (cp_range c)) (snd (cp_range c)) 1 (cp_targetScale c) p in
  Elem "div" None [] [
    Elem "motion.div" None
      [("style.scale", ANum scale); ("style.backgroundColor", AStr (Feature.color f));
       ("style.rotate", ANum (Feature.rotation f));
       ("style.top", AStr (decimal (Z.to_nat (card_top (cp_i c))) ++ utf16 "px")%list)] [
      Elem "div" None [] [
        Elem "motion.div" None [("style.y", ANum (image_y cq))] [
          Elem "img" None [("src", AStr (Feature.img f)); ("alt", AStr (Feature.title f))] []];
        Elem "div" None [] [Text (Feature.price f)]];
      Elem "div" None [] [
        Elem "h2" None [] [Text (Feature.title f)];
        Elem "p" None [] [Text (Feature.description f)];
        Elem "div" None [] [
          Elem "button" None [] [txt "Ordenar Ahora "; icon "ArrowUpRight"];
          Elem "button" None [] [icon "Heart"]]]]].

(** ** The map card (lines 149-161) *)

Definition map_card : VNode :=
  Elem "div" None [] [
    Elem "img" None
      [sattr "src" "https://images.unsplash.com/photo-1524661135-423995f22d0b?auto=format&fit=crop&q=80&w=1200";
       sattr "alt" "Mapa"] [];
    Elem "div" None [] [
      Elem "div" None [] [Elem "span" None [] []; Elem "div" None [] [icon "MapPin"]]]].

(** ** The hero (lines 195-215) *)

Definition hero : VNode :=
  Elem "header" None [] [
    Elem "div" None [] [];
    Elem "motion.div" None [] [
      Elem "div" None [] [Elem "span" None [] [icon "Star"; txt " Repostería de Autor"]];
      Elem "h1" None [] [txt "ARTE "; Elem "br" None [] []; txt " ";
                         Elem "span" None [] [txt "DULCE"]];
      Elem "p" None [] [txt "Donde la arquitectura se encuentra con el azúcar."];
      Elem "div" None [] [
        Elem "a" None [sattr "href" "#menu"] [txt "Explorar Menú "; icon "ArrowUpRight"]]]].

(** ** The marquee (lines 218-231): the content twice, the copy hidden
    from assistive technology, for a seamless CSS loop *)

Definition marquee_content_1 : VNode :=
  Elem "div" None [] [
    Elem "span" None [] [txt "Recién Horneado "; icon "Star"];
    Elem "span" None [] [txt "Ingredientes 100% Orgánicos "; icon "Star"];
    Elem "span" None [] [txt "Arte Comestible "; icon "Star"]].

Definition marquee_content_2 : VNode :=
  Elem "div" None [sattr "aria-hidden" "true"] [
    Elem "span" None [] [txt "Recién Horneado "; icon "Star"];
    Elem "span" None [] [txt "Ingredientes 100% Orgánicos "; icon "Star"];
    Elem "span" None [] [txt "Arte Comestible "; icon "Star"]].

Definition marquee : VNode :=
  Elem "div" None [] [Elem "div" None [] [marquee_content_1; marquee_content_2]].

(** ** The history slider (lines 234-281) *)

(** line 254: the class of indicator [idx] *)
Definition indicator_class (idx cur : nat) : jsstr :=
  (utf16 "h-1 transition-all duration-500 rounded-full " ++
   utf16 (if Nat.eqb idx cur then "w-12 bg-pink-500" else "w-4 bg-rose-200"))%list.

(** [None]: reading [.img] of [undefined] throws a [TypeError]. *)
Definition history_section (cur : nat) : option VNode :=
  match historySlides.[cur] with
  | None => None
  | Some sl =>
      Some (Elem "section" None [sattr "id" "historia"] [
        Elem "div" None [] [
          Elem "div" None [] [
            Comp "AnimatePresence" None [
              Elem "motion.div" (Some (KNum cur)) [] [
                Elem "div" None [] [];
                Elem "div" None [] [
                  Elem "img" None [("src", AStr (Slide.img sl)); sattr "alt" "Historia"] []]]];
            Elem "div" None []
              (mapi (fun idx _ =>
                       Elem "div" (Some (KNum idx)) [("className", AStr (indicator_class idx cur))] [])
                 historySlides)];
          Elem "div" None [] [
            Comp "AnimatePresence" None [
              Elem "motion.div" (Some (KNum cur)) [] [
                Elem "span" None [] [Text (Slide.year sl)];
                Elem "h2" None []
                  ((match heading_first (Slide.title sl) with
                   | Some w => [Text w]
                   | None => []
                   end ++
                   [txt " "; Elem "br" None [] [];
                    Elem "span" None [] [Text (heading_rest (Slide.title sl))]])%list);
                Elem "p" None [] [Text (Slide.description sl)]]]]]])
  end.

(** ** The stacking cards (lines 284-296) *)

Definition menu_section (p : Q) (cq : nat -> Q) : VNode :=
  Elem "section" None [sattr "id" "menu"] [
    Elem "div" None [] [
      Elem "h2" None [] [txt "Obras Maestras"];
      Elem "p" None [] [txt "Desliza para descubrir nuestra colección"]];
    Elem "div" None []
      (map (fun c => Comp "Card" (Some (KNum (cp_i c))) [card p (cq (cp_i c)) c]) cards)].

(** ** The daily favorites (lines 299-327) *)

Definition favorite_tile (idx : nat) (item : Favorite.t) : VNode :=
  Elem "motion.div" (Some (KNum idx)) [] [
    Elem "div" None [] [
      Elem "img" None [("src", AStr (Favorite.img item)); ("alt", AStr (Favorite.name item))] [];
      Elem "button" None [] [icon "ArrowUpRight"]];
    Elem "div" None [] [
      Elem "p" None [] [Text (Favorite.name item)];
      Elem "span" None [] [Text (Favorite.price item)]]].

Definition grid_section : VNode :=
  Elem "section" None [] [
    Elem "div" None [] [
      Elem "div" None [] [
        Elem "h3" None [] [txt "Favoritos Diarios"];
        Elem "a" None [sattr "href" "#"] [txt "Ver Menú Completo"]];
      Elem "div" None [] (mapi favorite_tile favorites)]].

(** ** The contact form (lines 360-379) *)

Definition form_field (label : string) (control : VNode) : VNode :=
  Elem "div" None [] [Elem "label" None [] [txt label]; control].

(** The two branches of the ternary on line 361; which one shows, and
    the submit button's [disabled] prop and label (370-371), are
    [ContactForm.render_form]'s. *)
Definition form_column (s : FormStatus) : VNode :=
  match render_form s with
  | SuccessPanel =>
      Elem "motion.div" (Some (KStr (utf16 "success"))) [] [
        icon "CheckCircle2";
        Elem "h4" None [] [txt "¡Mensaje Recibido!"];
        Elem "p" None [] [txt "Te contactaremos para hornear tus sueños."]]
  | FormPanel disabled label =>
      Elem "motion.form" (Some (KStr (utf16 "form"))) [("onSubmit", AHandler "handleFormSubmit")] [
        Elem "div" None [] [
          form_field "Nombre" (Elem "input" None [sattr "type" "text"; ("required", ABool true)] []);
          form_field "Teléfono" (Elem "input" None [sattr "type" "tel"; ("required", ABool true)] [])];
        form_field "Email" (Elem "input" None [sattr "type" "email"; ("required", ABool true)] []);
        form_field "Mensaje"
          (Elem "textarea" None [("rows", ANum 4); ("required", ABool true)] []);
        Elem "button" None [sattr "type" "submit"; ("disabled", ABool disabled)] [Text label]]
  end.

(** ** The location section (lines 330-383) *)

Definition contact_row (ic label value : string) : VNode :=
  Elem "div" None [] [
    Elem "div" None [] [icon ic];
    Elem "div" None [] [Elem "p" None [] [txt label]; Elem "p" None [] [txt value]]].

Definition location_section (s : FormStatus) : VNode :=
  Elem "section" None [sattr "id" "ubicacion"] [
    Elem "div" None [] [
      Elem "div" None [] [];
      Elem "div" None [] [
        Elem "h2" None [] [txt "Visítanos "; Elem "br" None [] [];
                           Elem "span" None [] [txt "tu rincón favorito"]];
        Elem "div" None [] [
          contact_row "MapPin" "Dirección" "Av. Paseo de la Reforma 222, CDMX";
          contact_row "Clock" "Horario" "Lun - Dom: 9:00 AM - 9:00 PM"];
        Comp "MapCard" None [map_card]];
      Elem "div" None [] [
        Elem "h3" None [] [txt "Pedidos Especiales"];
        Comp "AnimatePresence" None [form_column s]]]].

(** ** The footer (lines 385-398) *)

Definition footer : VNode :=
  Elem "footer" None [] [
    Elem "div" None [] [
      Elem "div" None [] [
        Elem "span" None [] [txt "DULCE"; Elem "span" None [] [txt "."]];
        Elem "p" None [] [txt "Haciendo del mundo un lugar más dulce, un bocado artesanal a la vez."]];
      Elem "div" None [] [
        icon "Instagram"; icon "Facebook"; Elem "div" None [] [];
        Elem "p" None [] [txt "Est. 2015"]]]].

(** ** The page (lines 187-400) *)

(** [App]'s render for the state [(s, cur)], the menu's scroll progress
    [p] and the cards' own progress [cq]; [None] when it throws. *)
Definition render_app (s : FormStatus) (cur : nat) (p : Q) (cq : nat -> Q) : option VNode :=
  match history_section cur with
  | None => None
  | Some hist =>
      Some (Elem "div" None [] [
        Elem "div" None [] [];
        Comp "Navbar" None [navbar];
        hero;
        marquee;
        hist;
        menu_section p cq;
        grid_section;
        location_section s;
        footer])
  end.

(** ** Reading the rendered page *)

(** A fragment link [#x] names an element of the page; [#] alone is the
    top of the document. *)
Definition link_ok (idl : list jsstr) (h : jsstr) : bool :=
  match h with
  | 35%N :: [] => true
  | 35%N :: x => existsb (jsstr_eqb x) idl
  | _ => false
  end.

Definition links_ok (v : VNode) : bool :=
  nodupb (ids v) && forallb (link_ok (ids v)) (hrefs v).

(** ** Lemmas *)

Lemma link_ok_sound (idl : list jsstr) (h : jsstr) :
  link_ok idl h = true -> h = utf16 "#" \/ exists x, h = (utf16 "#" ++ x)%list /\ In x idl.
Proof.
  destruct h as [|c x]; [discriminate |]. cbn.
  destruct (N.eqb_spec c 35) as [->|Hc].
  - destruct x as [|y r]; [now left |]. intros H. right. exists (y :: r). split; [reflexivity |].
    apply existsb_exists in H as (z & Hz & Heq). apply jsstr_eqb_spec in Heq. now subst.
  - destruct c as [|c]; [discriminate |].
    repeat (destruct c as [c|c|]; try discriminate); contradiction.
Qed.

(** Rendering succeeds exactly for the three slide indices; the cases
    of a successful render. *)
Lemma render_app_some (s : FormStatus) (cur : nat) (p : Q) (cq : nat -> Q) (v : VNode) :
  render_app s cur p cq = Some v ->
  (cur < 3)%nat /\ v = match render_app s cur p cq with Some u => u | None => v end.
Proof.
  intros H. rewrite H. split; [| reflexivity].
  unfold render_app, history_section in H.
  destruct (nth_error historySlides cur) eqn:E; [| discriminate].
  rewrite <- historySlides_length. apply nth_error_Some. now rewrite E.
Qed.

(** Case analysis on the state of a rendered page. *)
Ltac render_cases H :=
  let Hl := fresh "Hl" in
  destruct (render_app_some _ _ _ _ _ H) as [Hl ->];
  match goal with s : FormStatus |- _ => destruct s end;
  match type of Hl with
  | (?c < 3)%nat => destruct c as [|[|[|?]]]; [.. | lia]
  end.

(** ** Properties *)

(** C13: the render's only error path: it throws
    ([historySlides[currentSlide].img] of [undefined]) exactly when the
    slide index is 3 or more. *)
Theorem render_throws_iff (s : FormStatus) (cur : nat) (p : Q) (cq : nat -> Q) :
  render_app s cur p cq = None <-> (3 <= cur)%nat.
Proof.
  rewrite <- historySlides_length, <- nth_error_None.
  unfold render_app, history_section. destruct (nth_error historySlides cur); split; congruence.
Qed.

(** C14: React's keys are well formed on every rendered page:
    no two children of a node share a key (navbar items, slide
    indicators, cards, favorite tiles, the keyed animated panels). *)
Theorem keys_unique (s : FormStatus) (cur : nat) (p : Q) (cq : nat -> Q) (v : VNode) :
  render_app s cur p cq = Some v -> forall n, In n (nodes v) -> NoDup (child_keys n).
Proof.
  intros H n. apply keys_ok_NoDup. render_cases H; vm_compute; reflexivity.
Qed.

Lemma keys_unique_witness :
  exists v, render_app Submitting 1 (1 # 2) (fun _ => 0%Q) = Some v /\
    forall n, In n (nodes v) -> NoDup (child_keys n).
Proof.
  destruct (render_app Submitting 1 (1 # 2) (fun _ => 0%Q)) as [v|] eqn:E;
    [| vm_compute in E; discriminate E].
  exists v. split; [reflexivity | exact (keys_unique _ _ _ _ _ E)].
Defined.

(** C15: every link of a rendered page resolves: the page's ids
    are distinct, and each [href] is [#] (the top) or [#x] for the id [x]
    of an element of the page (the navbar's computed anchors, the hero's
    [#menu]). *)
Theorem links_resolve (s : FormStatus) (cur : nat) (p : Q) (cq : nat -> Q) (v : VNode) :
  render_app s cur p cq = Some v ->
  NoDup (ids v) /\
  Forall (fun h => h = utf16 "#" \/ exists x, h = (utf16 "#" ++ x)%list /\ In x (ids v))
    (hrefs v).
Proof.
  intros H. assert (Hok : links_ok v = true) by (render_cases H; vm_compute; reflexivity).
  apply andb_true_iff in Hok as [Hn Hf]. split; [now apply nodupb_NoDup |].
  apply Forall_forall. intros h Hh. rewrite forallb_forall in Hf.
  exact (link_ok_sound _ _ (Hf h Hh)).
Qed.

Lemma links_resolve_witness :
  exists v, render_app Idle 2 0 (fun _ => 0%Q) = Some v /\
    NoDup (ids v) /\
    Forall (fun h => h = utf16 "#" \/ exists x, h = (utf16 "#" ++ x)%list /\ In x (ids v))
      (hrefs v).
Proof.
  destruct (render_app Idle 2 0 (fun _ => 0%Q)) as [v|] eqn:E;
    [| vm_compute in E; discriminate E].
  exists v. split; [reflexivity | exact (links_resolve _ _ _ _ _ E)].
Defined.
